(** * syncStripe.js: the Stripe catalogue sync script

    A shallow embedding of [src/syncStripe.js] and the properties of its
    specification.

    The script is dynamically typed JavaScript.  The records it receives
    from the Stripe client are JSON objects, and its behaviour on absent or
    falsy fields is decided by JavaScript's truthiness, property access and
    conversion rules.  Those rules are embedded first ([Module Js]); the
    script's own functions follow, under the names they have in the source.

    Modelling conventions.
    - JavaScript numbers: the integer-valued ones, as [Z], plus [NaN].
      Amounts in minor units and epoch seconds are integers well inside the
      range where floating-point arithmetic is exact; fractional and
      infinite numbers are outside the model.  Where a number is printed,
      an integer beyond 2^53 stands for the double nearest to it.
    - JavaScript strings: [string], one character per code unit.
    - Exceptions: a [Result] is a value or a thrown error.
    - The two collaborators (the Stripe client and the Prisma client) are
      external.  What they answer is given by a [World]; what the script
      asks of them is recorded, in order, in a trace of [event]s next to
      the console output.
    - [async]/[await]: the script awaits every call before the next one,
      apart from two [Promise.all] joins of two calls each, which are
      modelled as issuing both calls and then receiving either both results
      or one rejection.
    - [sync] is the function from its [try] statement on.  The statement
      before it, [new PrismaClient()], and the [uncaughtException] handler
      that reports its failure are in [syncStripe], the script as a
      whole.  Other errors raised outside [sync] are not part of the
      model. *)

From Stdlib Require Import ZArith String List Lia.
From stdpp Require Import base option list strings pretty.

Local Open Scope string_scope.
Local Open Scope Z_scope.
Local Open Scope list_scope.

(** ** Exceptions *)

(** The errors the script can see.  [TypeError] is raised by the runtime,
    [Error] by the script's own [throw new Error(...)], and [ClientError]
    stands for whatever the Stripe or the Prisma client rejects with. *)
Inductive exn : Type :=
  | TypeError (message : string)
  | Error (message : string)
  | ClientError (message : string).

Inductive Result (A : Type) : Type :=
  | Ok (a : A)
  | Throw (e : exn).
Arguments Ok {A} a.
Arguments Throw {A} e.

#[global] Instance Result_ret : MRet Result := fun A a => Ok a.
#[global] Instance Result_bind : MBind Result := fun A B f m =>
  match m with
  | Ok a => f a
  | Throw e => Throw e
  end.

(** ** The JavaScript fragment the script relies on *)

Module Js.

Inductive number : Type :=
  | NaN
  | Int (z : Z).

(** JSON-shaped values.  An object is its list of own properties; the
    first binding of a key is the one that counts.  No value is a
    function. *)
#[warnings="-register-all"] Inductive value : Type :=
  | Undefined
  | Null
  | Bool (b : bool)
  | Number (n : number)
  | Str (s : string)
  | Arr (elements : list value)
  | Obj (properties : list (string * value)).

(** Own property lookup. *)
Fixpoint own (key : string) (properties : list (string * value))
  : option value :=
  match properties with
  | [] => None
  | (k, v) :: rest => if String.eqb k key then Some v else own key rest
  end.

(** ToBoolean: what [x ? a : b] and [x || y] test. *)
Definition truthy (v : value) : bool :=
  match v with
  | Undefined | Null => false
  | Bool b => b
  | Number NaN => false
  | Number (Int z) => negb (z =? 0)
  | Str s => negb (String.eqb s "")
  | Arr _ | Obj _ => true
  end.

(** [a || b] *)
Definition or (a b : value) : value := if truthy a then a else b.

Definition reading (base key : string) : exn :=
  TypeError
    ("Cannot read properties of " +:+ base +:+ " (reading '" +:+ key
       +:+ "')").

Definition not_a_function (what : string) : exn :=
  TypeError (what +:+ " is not a function").

(** [v.key], for the property names the script reads.  None of them
    except [length] lives on a prototype, so on anything but an object
    with that own property the answer is [undefined]; on [undefined] and
    [null] the access throws. *)
Definition get (v : value) (key : string) : Result value :=
  match v with
  | Undefined => Throw (reading "undefined" key)
  | Null => Throw (reading "null" key)
  | Obj properties => Ok (default Undefined (own key properties))
  | Arr elements =>
      Ok (if String.eqb key "length"
          then Number (Int (Z.of_nat (List.length elements)))
          else Undefined)
  | Str s =>
      Ok (if String.eqb key "length"
          then Number (Int (Z.of_nat (String.length s)))
          else Undefined)
  | Bool _ | Number _ => Ok Undefined
  end.

(** [v[0]] *)
Definition first (v : value) : Result value :=
  match v with
  | Undefined => Throw (reading "undefined" "0")
  | Null => Throw (reading "null" "0")
  | Obj properties => Ok (default Undefined (own "0" properties))
  | Arr elements => Ok (default Undefined (head elements))
  | Str s =>
      Ok (match s with
          | EmptyString => Undefined
          | String c _ => Str (String c EmptyString)
          end)
  | Bool _ | Number _ => Ok Undefined
  end.

(** The double nearest to the natural number [a], ties to even: a double
    has a significand of 53 bits. *)
Definition round_double (a : Z) : Z :=
  let e := Z.log2 a - 52 in
  if e <=? 0 then a
  else
    let q := a / 2 ^ e in
    let r := a mod 2 ^ e in
    let half := 2 ^ (e - 1) in
    (if (r <? half) || ((r =? half) && Z.even q) then q else q + 1) * 2 ^ e.

Definition decimal_digits (a : Z) : nat := String.length (pretty a).

(** The decimal with the fewest significant digits that rounds to the
    double [x]: the multiples of [10 ^ j] are tried for [j] from [zeros]
    down to 0, the two around [x] at each step, the closer one first. *)
Fixpoint shortest_decimal (zeros : nat) (x : Z) : Z :=
  let scale := 10 ^ Z.of_nat zeros in
  let lo := x / scale * scale in
  let hi := lo + scale in
  let lo_first :=
    (x - lo <? hi - x) || ((x - lo =? hi - x) && Z.even (x / scale)) in
  let c1 := if lo_first then lo else hi in
  let c2 := if lo_first then hi else lo in
  if round_double c1 =? x then c1
  else if round_double c2 =? x then c2
  else
    match zeros with
    | O => x
    | S zeros' => shortest_decimal zeros' x
    end.

Fixpoint strip_zeros (digits : string) : string :=
  match digits with
  | EmptyString => EmptyString
  | String c rest =>
      match strip_zeros rest with
      | EmptyString =>
          if String.eqb (String c EmptyString) "0" then EmptyString
          else String c EmptyString
      | rest' => String c rest'
      end
  end.

(** Number::toString, radix 10, of a natural number.  Up to 2^53 every
    integer is a double and is printed digit by digit.  Beyond, the number
    is the double nearest to [a] and is printed with the fewest digits that
    identify it: followed by zeros while there are at most 21 digits, in
    exponent notation from 1e21 on. *)
Definition natural_toString (a : Z) : string :=
  if a <=? 9007199254740992 then pretty a
  else
    let x := round_double a in
    let v := shortest_decimal (decimal_digits x - 1) x in
    if (decimal_digits v <=? 21)%nat then pretty v
    else
      match strip_zeros (pretty v) with
      | String d EmptyString =>
          String d EmptyString +:+ "e+" +:+ pretty (decimal_digits v - 1)%nat
      | String d more =>
          String d EmptyString +:+ "." +:+ more +:+ "e+"
            +:+ pretty (decimal_digits v - 1)%nat
      | EmptyString => pretty v
      end.

(** Number::toString, radix 10. *)
Definition number_toString (n : number) : string :=
  match n with
  | NaN => "NaN"
  | Int z =>
      if z <? 0 then "-" +:+ natural_toString (- z) else natural_toString z
  end.

(** ToString.  An array is the join of its elements with commas, where
    [undefined] and [null] elements count as empty.  An ordinary object
    is ["[object Object]"], unless an own [toString] property (which
    cannot be a function here) shadows the inherited method. *)
Fixpoint ToString (v : value) : Result string :=
  match v with
  | Undefined => Ok "undefined"
  | Null => Ok "null"
  | Bool b => Ok (if b then "true" else "false")
  | Number n => Ok (number_toString n)
  | Str s => Ok s
  | Arr elements =>
      (fix join (xs : list value) : Result string :=
         match xs with
         | [] => Ok ""
         | x :: rest =>
             s ← match x with
                 | Undefined | Null => Ok ""
                 | _ => ToString x
                 end;
             match rest with
             | [] => Ok s
             | _ => r ← join rest; Ok (s +:+ "," +:+ r)
             end
         end) elements
  | Obj properties =>
      match own "toString" properties with
      | Some _ => Throw (TypeError "Cannot convert object to primitive value")
      | None => Ok "[object Object]"
      end
  end.

(** [v.toString()] *)
Definition toString (v : value) : Result value :=
  match v with
  | Undefined => Throw (reading "undefined" "toString")
  | Null => Throw (reading "null" "toString")
  | Obj properties =>
      match own "toString" properties with
      | Some _ => Throw (not_a_function "toString")
      | None => Ok (Str "[object Object]")
      end
  | _ => s ← ToString v; Ok (Str s)
  end.

(** [v.map(f)] *)
Definition map (v : value) (f : value → Result value) : Result value :=
  match v with
  | Undefined => Throw (reading "undefined" "map")
  | Null => Throw (reading "null" "map")
  | Arr elements => ys ← mapM f elements; Ok (Arr ys)
  | _ => Throw (not_a_function "map")
  end.

(** A [Date] is its time value in milliseconds; [NaN] is Invalid Date. *)
Record Date : Type := mkDate { getTime : number }.

(** TimeClip: at most 8.64e15 ms either side of the epoch. *)
Definition new_Date (ms : number) : Date :=
  match ms with
  | NaN => mkDate NaN
  | Int z =>
      if Z.abs z <=? 8640000000000000 then mkDate (Int z) else mkDate NaN
  end.

Definition mul (a b : number) : number :=
  match a, b with
  | Int x, Int y => Int (x * y)
  | _, _ => NaN
  end.

(** [0 < n] on numbers; every comparison with [NaN] is false. *)
Definition positive (n : number) : bool :=
  match n with
  | NaN => false
  | Int z => 0 <? z
  end.

End Js.

Import Js.

(** ** The rows handed to the Prisma client

    The [data] argument of [prisma.stripeProduct.create] and of
    [prisma.stripePrice.create], field by field as the script builds it. *)

Module Product.
Record data : Type := mk {
  id : value;
  description : value;
  features : value;
  image : value;
  metadata : value;
  name : value;
  unitLabel : value;
  created : Date;
}.
End Product.

Module Price.
Record data : Type := mk {
  id : value;
  billingScheme : value;
  created : Date;
  currency : value;
  customUnitAmount : value;
  livemode : value;
  lookupKey : value;
  metadata : value;
  nickname : value;
  productId : value;
  recurring : value;
  tiersMode : value;
  type : value;
  unitAmount : value;
  unitAmountDecimal : value;
}.
End Price.

(** ** The destination store, the trace and the world *)

(** The two tables, oldest row first. *)
Record Db : Type := mkDb {
  stripeProduct : list Product.data;
  stripePrice : list Price.data;
}.

(** Calls to the two clients.  [stripe_list_all] is the join
    [Promise.all([stripe.products.list(..), stripe.prices.list(..)])] and
    [prisma_count_all] the join of the two [count()] calls. *)
Inductive call : Type :=
  | stripe_list_all
  | stripePrice_deleteMany
  | stripeProduct_deleteMany
  | stripeProduct_create (row : Product.data)
  | stripePrice_create (row : Price.data)
  | prisma_count_all.

Inductive printable : Type :=
  | text (s : string)
  | count (n : nat)
  | thrown (e : exn).

(** A call is recorded with its outcome: [None] when it returned, [Some e]
    when it rejected with [e]. *)
Inductive event : Type :=
  | console_log (line : list printable)
  | console_error (line : list printable)
  | called (c : call) (rejected : option exn).

(** The running script: the store it writes to and what it has done so far,
    in order. *)
Record Process : Type := mkProcess {
  db : Db;
  trace : list event;
}.

(** What the environment answers.  A [create] may be refused by the store
    for any reason (a duplicate key, a constraint, the connection); the
    refusal may depend on everything that happened before, on the tables
    and on the row.  [None] means that the call succeeds. *)
Record World : Type := mkWorld {
  STRIPE_SECRET_KEY : option string;
  list_all : Result (list value * list value);
  stripePrice_deleteMany_fault : option exn;
  stripeProduct_deleteMany_fault : option exn;
  stripeProduct_create_fault : list event → Db → Product.data → option exn;
  stripePrice_create_fault : list event → Db → Price.data → option exn;
  count_all_fault : option exn;
}.

(** ** Statements that touch the process: state and exceptions *)

Definition M (A : Type) : Type := Process → Result A * Process.

#[global] Instance M_ret : MRet M := fun A a st => (Ok a, st).
#[global] Instance M_bind : MBind M := fun A B f m st =>
  match m st with
  | (Ok a, st') => f a st'
  | (Throw e, st') => (Throw e, st')
  end.

Definition lift {A} (r : Result A) : M A := fun st => (r, st).

Definition rejection {A} (r : Result A) : option exn :=
  match r with
  | Ok _ => None
  | Throw e => Some e
  end.

Definition throw {A} (e : exn) : M A := fun st => (Throw e, st).

(** [try { m } catch (error) { handler error }] *)
Definition try_catch {A} (m : M A) (handler : exn → M A) : M A := fun st =>
  match m st with
  | (Ok a, st') => (Ok a, st')
  | (Throw e, st') => handler e st'
  end.

(** [for (const x of xs) { body x }] *)
Fixpoint for_of {A} (xs : list A) (body : A → M unit) : M unit :=
  match xs with
  | [] => mret ()
  | x :: rest => body x;; for_of rest body
  end.

Definition emit (e : event) : M unit := fun st =>
  (Ok (), mkProcess (db st) (trace st ++ [e])).

Definition get_db : M Db := fun st => (Ok (db st), st).
Definition get_trace : M (list event) := fun st => (Ok (trace st), st).
Definition put_db (d : Db) : M unit := fun st =>
  (Ok (), mkProcess d (trace st)).

(** A call that the world may fail: the call is recorded, then it either
    throws or goes through. *)
Definition attempt (c : call) (fault : option exn) : M unit :=
  emit (called c fault);;
  match fault with
  | Some e => throw e
  | None => mret ()
  end.

(** ** The script *)

Section Script.

(** StringToNumber of the runtime, which parses numeric literals of every
    form.  The script reaches it only when a record carries a string, an
    array or an object where the provider documents a number; it is left
    abstract. *)
Variable StringToNumber : string → number.

(** ToNumber. *)
Definition ToNumber (v : value) : Result number :=
  match v with
  | Undefined => Ok NaN
  | Null => Ok (Int 0)
  | Bool b => Ok (Int (if b then 1 else 0))
  | Number n => Ok n
  | Str s => Ok (StringToNumber s)
  | Arr _ | Obj _ => s ← ToString v; Ok (StringToNumber s)
  end.

(** [new Date(data.created * 1000)] *)
Definition created_of (data : value) : Result Date :=
  seconds ← get data "created";
  n ← ToNumber seconds;
  Ok (new_Date (mul n (Int 1000))).

(** [data.key ? data.key.toString() : otherwise] *)
Definition toString_or (data : value) (key : string) (otherwise : value)
  : Result value :=
  x ← get data key;
  if truthy x then y ← get data key; toString y else Ok otherwise.

(** The object literal of [seedProducts], its fields evaluated in source
    order. *)
Definition product_data (data : value) : Result Product.data :=
  id ← get data "id";
  description ← (d ← get data "description"; Ok (or d (Str "")));
  features ←
    (fs ← get data "features";
     Js.map (or fs (Arr [])) (fun a => get a "name"));
  image ←
    (images ← get data "images";
     len ← get images "length";
     n ← ToNumber len;
     if positive n
     then images' ← get data "images"; first images'
     else Ok (Str ""));
  metadata ← get data "metadata";
  name ← get data "name";
  unitLabel ← get data "unit_label";
  created ← created_of data;
  Ok (Product.mk id description features image metadata name unitLabel
        created).

(** The object literal of [seedPrices]. *)
Definition price_data (data : value) : Result Price.data :=
  id ← get data "id";
  billingScheme ← get data "billing_scheme";
  created ← created_of data;
  currency ← get data "currency";
  customUnitAmount ← toString_or data "custom_unit_amount" Null;
  livemode ← get data "livemode";
  lookupKey ← get data "lookup_key";
  metadata ← get data "metadata";
  nickname ← get data "nickname";
  productId ← get data "product";
  recurring ← get data "recurring";
  tiersMode ← toString_or data "tiers_mode" (Str "");
  type ← get data "type";
  unitAmount ← toString_or data "unit_amount" Null;
  unitAmountDecimal ← get data "unit_amount_decimal";
  Ok (Price.mk id billingScheme created currency customUnitAmount livemode
        lookupKey metadata nickname productId recurring tiersMode type
        unitAmount unitAmountDecimal).

Variable w : World.

(** [prisma.stripeProduct.create({ data: row })]: on success the row is
    in the table, on failure the table is as before. *)
Definition create_product (row : Product.data) : M unit :=
  history ← get_trace;
  d ← get_db;
  attempt (stripeProduct_create row)
    (stripeProduct_create_fault w history d row);;
  put_db (mkDb (stripeProduct d ++ [row]) (stripePrice d)).

Definition create_price (row : Price.data) : M unit :=
  history ← get_trace;
  d ← get_db;
  attempt (stripePrice_create row)
    (stripePrice_create_fault w history d row);;
  put_db (mkDb (stripeProduct d) (stripePrice d ++ [row])).

(** The statement inside [try] in [seedProducts]: the row is built, then
    handed to [create]. *)
Definition insert_product (data : value) : M unit :=
  row ← lift (product_data data); create_product row.

Definition insert_price (data : value) : M unit :=
  row ← lift (price_data data); create_price row.

Definition seedProducts (products : list value) : M unit :=
  for_of products (fun data =>
    try_catch (insert_product data)
      (fun error => emit (console_log [thrown error]))).

Definition seedPrices (prices : list value) : M unit :=
  for_of prices (fun data =>
    try_catch (insert_price data)
      (fun error => emit (console_log [thrown error]))).

Definition getStripeInstance : Result unit :=
  let key := match STRIPE_SECRET_KEY w with
             | Some s => Str s
             | None => Undefined
             end in
  if truthy key then Ok ()
  else Throw (Error "STRIPE_SECRET_KEY environment variable not set").

Definition cleanup : M unit :=
  attempt stripePrice_deleteMany (stripePrice_deleteMany_fault w);;
  d ← get_db;
  put_db (mkDb (stripeProduct d) []);;
  attempt stripeProduct_deleteMany (stripeProduct_deleteMany_fault w);;
  d ← get_db;
  put_db (mkDb [] (stripePrice d)).

Definition printStats : M unit :=
  attempt prisma_count_all (count_all_fault w);;
  d ← get_db;
  emit (console_log [text "Products synced:";
                     count (List.length (stripeProduct d))]);;
  emit (console_log [text "Prices synced:";
                     count (List.length (stripePrice d))]).

(** The [try] block of [sync]; its value is the code it exits with.  The
    client made by [new PrismaClient()] just before the block is the store
    that the process writes to. *)
Definition sync_try : M Z :=
  emit (console_log [text "Starting sync with Stripe"]);;
  lift getStripeInstance;;
  emit (called stripe_list_all (rejection (list_all w)));;
  '(products, prices) ← lift (list_all w);
  if (0 <? List.length prices)%nat && (0 <? List.length products)%nat
  then
    cleanup;;
    seedProducts products;;
    seedPrices prices;;
    printStats;;
    emit (console_log [text "Sync completed successfully"]);;
    mret 0
  else
    if (List.length prices =? 0)%nat
    then throw (Error "No prices found on Stripe")
    else throw (Error "No products found on Stripe").

(** [sync], once the client is constructed: the exit code and the process
    as it is left, started on a store [d0]. *)
Definition sync (d0 : Db) : Z * Process :=
  match sync_try (mkProcess d0 []) with
  | (Ok code, st) => (code, st)
  | (Throw error, st) =>
      (1, mkProcess (db st)
            (trace st ++ [console_error [text "Error syncing with Stripe:";
                                         thrown error]]))
  end.

End Script.

(** ** Reading a run off its trace *)

(** The row of a [create] call that returned. *)
Definition inserted_product (e : event) : option Product.data :=
  match e with
  | called (stripeProduct_create row) None => Some row
  | _ => None
  end.

Definition inserted_price (e : event) : option Price.data :=
  match e with
  | called (stripePrice_create row) None => Some row
  | _ => None
  end.

(** The product, resp. price, insertions of a trace that did not error. *)
Definition inserted_products (t : list event) : list Product.data :=
  omap inserted_product t.

Definition inserted_prices (t : list event) : list Price.data :=
  omap inserted_price t.

(** What one iteration of [seedProducts], resp. [seedPrices], can leave in
    the trace: a [create] call on its own table and a logged error. *)
Definition product_phase (e : event) : bool :=
  match e with
  | console_log _ | called (stripeProduct_create _) _ => true
  | _ => false
  end.

Definition price_phase (e : event) : bool :=
  match e with
  | console_log _ | called (stripePrice_create _) _ => true
  | _ => false
  end.

(** [undefined] or [null]. *)
Definition absent (v : value) : bool :=
  match v with
  | Undefined | Null => true
  | _ => false
  end.

(** A primitive, or an object that does not shadow [toString]: every
    conversion of such a value returns. *)
Definition plain (v : value) : bool :=
  match v with
  | Arr _ => false
  | Obj properties =>
      match own "toString" properties with
      | Some _ => false
      | None => true
      end
  | _ => true
  end.

(** A string, [undefined] or [null]. *)
Definition optional_string (v : value) : bool :=
  match v with
  | Undefined | Null | Str _ => true
  | _ => false
  end.

(** The credential is set and both pages arrive. *)
Definition fetches (w : World) (products prices : list value) : Prop :=
  getStripeInstance w = Ok () ∧ list_all w = Ok (products, prices).

(** Both [deleteMany] calls go through. *)
Definition deletes (w : World) : Prop :=
  stripePrice_deleteMany_fault w = None ∧
  stripeProduct_deleteMany_fault w = None.

(** The first events of every run that gets as far as the insertions. *)
Definition preamble : list event :=
  [console_log [text "Starting sync with Stripe"];
   called stripe_list_all None;
   called stripePrice_deleteMany None;
   called stripeProduct_deleteMany None].

(** The last events of a run that completes, after the trace [t]. *)
Definition report (t : list event) : list event :=
  [called prisma_count_all None;
   console_log [text "Products synced:";
                count (List.length (inserted_products t))];
   console_log [text "Prices synced:";
                count (List.length (inserted_prices t))];
   console_log [text "Sync completed successfully"]].

(** The two loops run from the emptied store, after the [preamble]: the run
    from its first insertion on.  The store the run started on does not
    occur in it. *)
Definition seeded (StringToNumber : string → number) (w : World)
    (products prices : list value) : Result unit * Process :=
  match
    seedProducts StringToNumber w products (mkProcess (mkDb [] []) preamble)
  with
  | (Ok _, st) => seedPrices StringToNumber w prices st
  | (Throw e, st) => (Throw e, st)
  end.

(** The property of the specification's invariant on owning products: a
    price row of the store whose [productId] is the [id] of a fetched
    product has a product row with that [id] in the store. *)
Definition owners_present (products : list value) (d : Db) : Prop :=
  ∀ price data,
    price ∈ stripePrice d →
    data ∈ products →
    get data "id" = Ok (Price.productId price) →
    ∃ product,
      product ∈ stripeProduct d ∧ Product.id product = Price.productId price.

(** ** More ways to read a run *)

(** What a call returned, when it did. *)
Definition returned {A} (r : Result A) : option A :=
  match r with
  | Ok a => Some a
  | Throw _ => None
  end.

(** A line written by the [catch] of a seeding loop: [console.log(error)]. *)
Definition is_logged_error (e : event) : bool :=
  match e with
  | console_log [thrown _] => true
  | _ => false
  end.

Definition logged_errors (t : list event) : nat :=
  List.length (List.filter is_logged_error t).

(** A [create] call, on either table, returned or not. *)
Definition is_create (e : event) : bool :=
  match e with
  | called (stripeProduct_create _) _ | called (stripePrice_create _) _ => true
  | _ => false
  end.

(** The first line of every run and the last line of a failed one. *)
Definition started : event :=
  console_log [text "Starting sync with Stripe"].

Definition reported (e : exn) : event :=
  console_error [text "Error syncing with Stripe:"; thrown e].

Definition completed : event :=
  console_log [text "Sync completed successfully"].

(** The error of the [else] branch of [sync]. *)
Definition nothing_found (prices : list value) : exn :=
  Error match prices with
        | [] => "No prices found on Stripe"
        | _ :: _ => "No products found on Stripe"
        end.

(** ** The script as node runs it *)



(** ** Sample records and worlds *)

Module Sample.

(** The product and the price of the specification's end-to-end
    scenario. *)
Definition prod_1 : value :=
  Obj [("id", Str "prod_1"); ("name", Str "Pro"); ("images", Arr []);
       ("features", Arr []); ("metadata", Obj [])].

Definition price_1 : value :=
  Obj [("id", Str "price_1"); ("product", Str "prod_1");
       ("unit_amount", Number (Int 1000)); ("currency", Str "usd");
       ("billing_scheme", Str "per_unit");
       ("created", Number (Int 1700000000)); ("livemode", Bool false)].

(** A fuller product record. *)
Definition prod_2 : value :=
  Obj [("id", Str "prod_2"); ("name", Str "Team");
       ("description", Str "For teams");
       ("features", Arr [Obj [("name", Str "SSO")];
                         Obj [("name", Str "Audit logs")]]);
       ("images", Arr [Str "https://files.example/team.png";
                       Str "https://files.example/team-2.png"]);
       ("metadata", Obj []); ("unit_label", Str "seat");
       ("created", Number (Int 1700000000))].

(** A product record that carries no [images] and no [features]. *)
Definition prod_bare : value :=
  Obj [("id", Str "prod_1"); ("name", Str "Pro")].

(** A product with [images] but without [features]. *)
Definition prod_plain : value :=
  Obj [("id", Str "prod_3"); ("name", Str "Solo"); ("images", Arr []);
       ("created", Number (Int 1700000000))].

(** A free price: its amount is zero. *)
Definition price_free : value :=
  Obj [("id", Str "price_free"); ("product", Str "prod_1");
       ("unit_amount", Number (Int 0)); ("unit_amount_decimal", Str "0");
       ("currency", Str "usd"); ("billing_scheme", Str "per_unit");
       ("created", Number (Int 1700000000)); ("livemode", Bool false);
       ("type", Str "recurring")].

(** A tiered price. *)
Definition price_tiered : value :=
  Obj [("id", Str "price_2"); ("product", Str "prod_2");
       ("tiers_mode", Str "graduated"); ("unit_amount", Null);
       ("currency", Str "usd"); ("billing_scheme", Str "tiered");
       ("created", Number (Int 1700000000)); ("livemode", Bool false)].

(** No string is read as a number by the sample records. *)
Definition unparsed : string → number := fun _ => NaN.

Definition same_id (a b : value) : bool :=
  match a, b with
  | Str x, Str y => String.eqb x y
  | _, _ => false
  end.

(** A store that enforces its primary keys and nothing else. *)
Definition unique_product (_ : list event) (d : Db) (row : Product.data)
  : option exn :=
  if existsb (fun r => same_id (Product.id r) (Product.id row))
       (stripeProduct d)
  then Some (ClientError "Unique constraint failed on the fields: (`id`)")
  else None.

Definition unique_price (_ : list event) (d : Db) (row : Price.data)
  : option exn :=
  if existsb (fun r => same_id (Price.id r) (Price.id row)) (stripePrice d)
  then Some (ClientError "Unique constraint failed on the fields: (`id`)")
  else None.

Definition sk : option string := Some "sk_test_1".

Definition world (key : option string) (products prices : list value)
  : World :=
  mkWorld key (Ok (products, prices)) None None unique_product unique_price
    None.

Definition empty : Db := mkDb [] [].

(** A store left by an earlier sync. *)
Definition old_product : Product.data :=
  Product.mk (Str "prod_0") (Str "") (Arr []) (Str "") (Obj [])
    (Str "Legacy") Null (mkDate (Int 1600000000000)).

Definition old_price : Price.data :=
  Price.mk (Str "price_0") (Str "per_unit") (mkDate (Int 1600000000000))
    (Str "usd") Null (Bool false) Null (Obj []) Null (Str "prod_0") Null
    (Str "") (Str "one_time") (Str "500") (Str "500").

Definition stale : Db := mkDb [old_product] [old_price].


(** A world whose store fails where told, and accepts every row. *)
Definition faulty (price_delete product_delete counting : option exn)
    (products prices : list value) : World :=
  mkWorld sk (Ok (products, prices)) price_delete product_delete
    (fun _ _ _ => None) (fun _ _ _ => None) counting.

(** A world whose fetch is rejected. *)
Definition offline (e : exn) : World :=
  mkWorld sk (Throw e) None None unique_product unique_price None.

(** A world whose store refuses every row. *)
Definition refusing (products prices : list value) : World :=
  mkWorld sk (Ok (products, prices)) None None
    (fun _ _ _ => Some (ClientError "Invalid invocation"))
    (fun _ _ _ => Some (ClientError "Invalid invocation")) None.

Definition timeout : exn := ClientError "Timed out".

(** A price whose custom amount is the object the provider sends. *)
Definition price_custom : value :=
  Obj [("id", Str "price_3"); ("product", Str "prod_2");
       ("custom_unit_amount",
        Obj [("maximum", Number (Int 10000)); ("minimum", Number (Int 100));
             ("preset", Number (Int 500))]);
       ("unit_amount", Null); ("currency", Str "usd");
       ("billing_scheme", Str "per_unit");
       ("created", Number (Int 1700000000)); ("livemode", Bool false)].

(** A product one of whose features is [null]. *)
Definition prod_holed : value :=
  Obj [("id", Str "prod_4"); ("name", Str "Holed");
       ("features", Arr [Obj [("name", Str "SSO")]; Null]);
       ("images", Arr []); ("created", Number (Int 1700000000))].

(** A product whose features came as a string. *)
Definition prod_flat : value :=
  Obj [("id", Str "prod_5"); ("name", Str "Flat");
       ("features", Str "SSO, Audit logs");
       ("images", Arr []); ("created", Number (Int 1700000000))].

End Sample.

(** ** Properties *)

(** Unfolds the state-and-exception plumbing. *)
Ltac run :=
  cbv beta iota zeta delta
    [mbind mret M_bind M_ret attempt emit throw lift get_db get_trace put_db
     try_catch fst snd db trace stripeProduct stripePrice] in *.

(** The script's functions, unfolded by name. *)
Ltac script :=
  unfold insert_product, insert_price, create_product, create_price,
    cleanup, printStats in *.

Ltac loops := unfold seedProducts, seedPrices; cbn [for_of].

Ltac main := unfold sync, sync_try, seeded.

Section Properties.

Variable StringToNumber : string → number.
Variable w : World.

(** In this section the script's functions are written without these two
    parameters. *)
Abbreviation insert_product := (insert_product StringToNumber w).
Abbreviation insert_price := (insert_price StringToNumber w).
Abbreviation seedProducts := (seedProducts StringToNumber w).
Abbreviation seedPrices := (seedPrices StringToNumber w).
Abbreviation seeded := (seeded StringToNumber w).
Abbreviation sync := (sync StringToNumber w).
Abbreviation logged e := (console_log [thrown e]).

(** *** One insertion *)

Lemma insert_product_cases data st :
  insert_product data st =
    match product_data StringToNumber data with
    | Throw e => (Throw e, st)
    | Ok row =>
        match stripeProduct_create_fault w (trace st) (db st) row with
        | Some e =>
            (Throw e,
             mkProcess (db st)
               (trace st ++ [called (stripeProduct_create row) (Some e)]))
        | None =>
            (Ok (),
             mkProcess
               (mkDb (stripeProduct (db st) ++ [row]) (stripePrice (db st)))
               (trace st ++ [called (stripeProduct_create row) None]))
        end
    end.
Proof.
  script. run.
  destruct (product_data StringToNumber data) as [row|e]; [|done].
  destruct st as [d t]; cbn.
  by destruct (stripeProduct_create_fault w t d row).
Qed.

Lemma insert_price_cases data st :
  insert_price data st =
    match price_data StringToNumber data with
    | Throw e => (Throw e, st)
    | Ok row =>
        match stripePrice_create_fault w (trace st) (db st) row with
        | Some e =>
            (Throw e,
             mkProcess (db st)
               (trace st ++ [called (stripePrice_create row) (Some e)]))
        | None =>
            (Ok (),
             mkProcess
               (mkDb (stripeProduct (db st)) (stripePrice (db st) ++ [row]))
               (trace st ++ [called (stripePrice_create row) None]))
        end
    end.
Proof.
  script. run.
  destruct (price_data StringToNumber data) as [row|e]; [|done].
  destruct st as [d t]; cbn.
  by destruct (stripePrice_create_fault w t d row).
Qed.

(** A failed insertion leaves the tables as they were and adds nothing to
    the trace but, at most, its own rejected call. *)
Lemma insert_product_throws data st e st' :
  insert_product data st = (Throw e, st') →
  db st' = db st ∧
  inserted_products (trace st') = inserted_products (trace st) ∧
  inserted_prices (trace st') = inserted_prices (trace st).
Proof.
  rewrite insert_product_cases.
  destruct (product_data StringToNumber data) as [row|e0].
  - destruct (stripeProduct_create_fault w (trace st) (db st) row) as [e1|];
      intros [= <- <-]; cbn.
    unfold inserted_products, inserted_prices.
    rewrite !omap_app. cbn. by rewrite !app_nil_r.
  - by intros [= <- <-].
Qed.

Lemma insert_price_throws data st e st' :
  insert_price data st = (Throw e, st') →
  db st' = db st ∧
  inserted_products (trace st') = inserted_products (trace st) ∧
  inserted_prices (trace st') = inserted_prices (trace st).
Proof.
  rewrite insert_price_cases.
  destruct (price_data StringToNumber data) as [row|e0].
  - destruct (stripePrice_create_fault w (trace st) (db st) row) as [e1|];
      intros [= <- <-]; cbn.
    unfold inserted_products, inserted_prices.
    rewrite !omap_app. cbn. by rewrite !app_nil_r.
  - by intros [= <- <-].
Qed.

(** *** The two loops *)

Lemma seedProducts_cons data rest st :
  seedProducts (data :: rest) st =
    match insert_product data st with
    | (Ok _, st') => seedProducts rest st'
    | (Throw e, st') =>
        seedProducts rest (mkProcess (db st') (trace st' ++ [logged e]))
    end.
Proof.
  loops. run.
  by destruct (insert_product data st) as [[[]|e] st'].
Qed.

Lemma seedPrices_cons data rest st :
  seedPrices (data :: rest) st =
    match insert_price data st with
    | (Ok _, st') => seedPrices rest st'
    | (Throw e, st') =>
        seedPrices rest (mkProcess (db st') (trace st' ++ [logged e]))
    end.
Proof.
  loops. run.
  by destruct (insert_price data st) as [[[]|e] st'].
Qed.

(** No error escapes a loop. *)
Lemma seedProducts_returns products st : (seedProducts products st).1 = Ok ().
Proof.
  revert st. induction products as [|data rest IH]; intros st; [done|].
  rewrite seedProducts_cons.
  by destruct (insert_product data st) as [[[]|e] st'].
Qed.

Lemma seedPrices_returns prices st : (seedPrices prices st).1 = Ok ().
Proof.
  revert st. induction prices as [|data rest IH]; intros st; [done|].
  rewrite seedPrices_cons.
  by destruct (insert_price data st) as [[[]|e] st'].
Qed.

Lemma seedProducts_app before after st :
  seedProducts (before ++ after) st =
    seedProducts after (seedProducts before st).2.
Proof.
  revert st. induction before as [|data rest IH]; intros st; [done|].
  rewrite <- app_comm_cons, !seedProducts_cons.
  by destruct (insert_product data st) as [[[]|e] st'].
Qed.

Lemma seedPrices_app before after st :
  seedPrices (before ++ after) st =
    seedPrices after (seedPrices before st).2.
Proof.
  revert st. induction before as [|data rest IH]; intros st; [done|].
  rewrite <- app_comm_cons, !seedPrices_cons.
  by destruct (insert_price data st) as [[[]|e] st'].
Qed.


(** What a loop does to the process: it extends the trace by events of its
    own phase, and its table by the rows whose [create] returned. *)
Lemma seedProducts_run products st :
  ∃ t,
    Forall (λ e, product_phase e = true) t ∧
    seedProducts products st =
      (Ok (),
       mkProcess
         (mkDb (stripeProduct (db st) ++ inserted_products t)
            (stripePrice (db st)))
         (trace st ++ t)).
Proof.
  revert st. induction products as [|data rest IH]; intros [[ps rs] t0].
  { exists []. split; [constructor|]. cbn. by rewrite !app_nil_r. }
  rewrite seedProducts_cons, insert_product_cases. cbn [db trace].
  destruct (product_data StringToNumber data) as [row|e].
  - destruct (stripeProduct_create_fault w t0 (mkDb ps rs) row) as [e|];
      cbn [db trace stripeProduct stripePrice].
    + destruct (IH (mkProcess (mkDb ps rs)
                      ((t0 ++ [called (stripeProduct_create row) (Some e)])
                         ++ [logged e]))) as (t & Ht & ->).
      exists (called (stripeProduct_create row) (Some e) :: logged e :: t).
      split; [by repeat constructor|].
      cbn. by rewrite <- !app_assoc.
    + destruct (IH (mkProcess (mkDb (ps ++ [row]) rs)
                      (t0 ++ [called (stripeProduct_create row) None])))
        as (t & Ht & ->).
      exists (called (stripeProduct_create row) None :: t).
      split; [by repeat constructor|].
      cbn. by rewrite <- !app_assoc.
  - cbn [db trace].
    destruct (IH (mkProcess (mkDb ps rs) (t0 ++ [logged e])))
      as (t & Ht & ->).
    exists (logged e :: t).
    split; [by repeat constructor|].
    cbn. by rewrite <- !app_assoc.
Qed.

Lemma seedPrices_run prices st :
  ∃ t,
    Forall (λ e, price_phase e = true) t ∧
    seedPrices prices st =
      (Ok (),
       mkProcess
         (mkDb (stripeProduct (db st))
            (stripePrice (db st) ++ inserted_prices t))
         (trace st ++ t)).
Proof.
  revert st. induction prices as [|data rest IH]; intros [[ps rs] t0].
  { exists []. split; [constructor|]. cbn. by rewrite !app_nil_r. }
  rewrite seedPrices_cons, insert_price_cases. cbn [db trace].
  destruct (price_data StringToNumber data) as [row|e].
  - destruct (stripePrice_create_fault w t0 (mkDb ps rs) row) as [e|];
      cbn [db trace stripeProduct stripePrice].
    + destruct (IH (mkProcess (mkDb ps rs)
                      ((t0 ++ [called (stripePrice_create row) (Some e)])
                         ++ [logged e]))) as (t & Ht & ->).
      exists (called (stripePrice_create row) (Some e) :: logged e :: t).
      split; [by repeat constructor|].
      cbn. by rewrite <- !app_assoc.
    + destruct (IH (mkProcess (mkDb ps (rs ++ [row]))
                      (t0 ++ [called (stripePrice_create row) None])))
        as (t & Ht & ->).
      exists (called (stripePrice_create row) None :: t).
      split; [by repeat constructor|].
      cbn. by rewrite <- !app_assoc.
  - cbn [db trace].
    destruct (IH (mkProcess (mkDb ps rs) (t0 ++ [logged e])))
      as (t & Ht & ->).
    exists (logged e :: t).
    split; [by repeat constructor|].
    cbn. by rewrite <- !app_assoc.
Qed.

(** Every record whose row can be built has its [create] call made. *)
Lemma seedProducts_attempts products st data row :
  data ∈ products →
  product_data StringToNumber data = Ok row →
  ∃ o,
    called (stripeProduct_create row) o ∈ trace (seedProducts products st).2.
Proof.
  intros Hin Hrow. revert st.
  induction Hin as [data rest|data data' rest _ IH]; intros st.
  - rewrite seedProducts_cons, insert_product_cases, Hrow.
    destruct (stripeProduct_create_fault w (trace st) (db st) row) as [e|];
      cbn [db trace].
    + exists (Some e).
      destruct (seedProducts_run rest
                  (mkProcess (db st)
                     ((trace st
                         ++ [called (stripeProduct_create row) (Some e)])
                        ++ [logged e]))) as (t & _ & ->).
      cbn [snd trace]. rewrite !elem_of_app, list_elem_of_singleton. tauto.
    + exists None.
      destruct (seedProducts_run rest
                  (mkProcess
                     (mkDb (stripeProduct (db st) ++ [row])
                        (stripePrice (db st)))
                     (trace st ++ [called (stripeProduct_create row) None])))
        as (t & _ & ->).
      cbn [snd trace]. rewrite !elem_of_app, list_elem_of_singleton. tauto.
  - rewrite seedProducts_cons.
    destruct (insert_product data' st) as [[[]|e] st']; by apply IH.
Qed.

Lemma seedPrices_attempts prices st data row :
  data ∈ prices →
  price_data StringToNumber data = Ok row →
  ∃ o, called (stripePrice_create row) o ∈ trace (seedPrices prices st).2.
Proof.
  intros Hin Hrow. revert st.
  induction Hin as [data rest|data data' rest _ IH]; intros st.
  - rewrite seedPrices_cons, insert_price_cases, Hrow.
    destruct (stripePrice_create_fault w (trace st) (db st) row) as [e|];
      cbn [db trace].
    + exists (Some e).
      destruct (seedPrices_run rest
                  (mkProcess (db st)
                     ((trace st
                         ++ [called (stripePrice_create row) (Some e)])
                        ++ [logged e]))) as (t & _ & ->).
      cbn [snd trace]. rewrite !elem_of_app, list_elem_of_singleton. tauto.
    + exists None.
      destruct (seedPrices_run rest
                  (mkProcess
                     (mkDb (stripeProduct (db st))
                        (stripePrice (db st) ++ [row]))
                     (trace st ++ [called (stripePrice_create row) None])))
        as (t & _ & ->).
      cbn [snd trace]. rewrite !elem_of_app, list_elem_of_singleton. tauto.
  - rewrite seedPrices_cons.
    destruct (insert_price data' st) as [[[]|e] st']; by apply IH.
Qed.

Lemma product_phase_no_price t :
  Forall (λ e, product_phase e = true) t → inserted_prices t = [].
Proof.
  induction 1 as [|e t He _ IH]; [done|].
  unfold inserted_prices in *. cbn. rewrite IH.
  by destruct e as [| |[] []].
Qed.

Lemma price_phase_no_product t :
  Forall (λ e, price_phase e = true) t → inserted_products t = [].
Proof.
  induction 1 as [|e t He _ IH]; [done|].
  unfold inserted_products in *. cbn. rewrite IH.
  by destruct e as [| |[] []].
Qed.


(** *** The whole run *)

Lemma cleanup_run st :
  deletes w →
  cleanup w st =
    (Ok (),
     mkProcess (mkDb [] [])
       (trace st ++ [called stripePrice_deleteMany None;
                     called stripeProduct_deleteMany None])).
Proof.
  intros [Hprice Hproduct]. script. run. rewrite Hprice, Hproduct.
  by rewrite <- app_assoc.
Qed.

Lemma seeded_run products prices :
  ∃ tp tr,
    Forall (λ e, product_phase e = true) tp ∧
    Forall (λ e, price_phase e = true) tr ∧
    seedProducts products (mkProcess (mkDb [] []) preamble) =
      (Ok (), mkProcess (mkDb (inserted_products tp) []) (preamble ++ tp)) ∧
    seeded products prices =
      (Ok (),
       mkProcess (mkDb (inserted_products tp) (inserted_prices tr))
         (preamble ++ tp ++ tr)).
Proof.
  unfold seeded.
  destruct (seedProducts_run products (mkProcess (mkDb [] []) preamble))
    as (tp & Htp & ->).
  cbn [db trace stripeProduct stripePrice app].
  destruct (seedPrices_run prices
              (mkProcess (mkDb (inserted_products tp) []) (preamble ++ tp)))
    as (tr & Htr & ->).
  exists tp, tr. split; [done|]. split; [done|]. split; [done|].
  cbn [db trace stripeProduct stripePrice]. by rewrite <- app_assoc.
Qed.

Lemma sync_seeded products prices d0 :
  fetches w products prices →
  (0 < List.length products)%nat →
  (0 < List.length prices)%nat →
  deletes w →
  sync d0 =
    match seeded products prices with
    | (Ok _, st) =>
        match printStats w st with
        | (Ok _, st') =>
            (0,
             mkProcess (db st')
               (trace st' ++ [console_log [text "Sync completed successfully"]]))
        | (Throw e, st') =>
            (1,
             mkProcess (db st')
               (trace st' ++ [console_error [text "Error syncing with Stripe:";
                                             thrown e]]))
        end
    | (Throw e, st) =>
        (1,
         mkProcess (db st)
           (trace st ++ [console_error [text "Error syncing with Stripe:";
                                        thrown e]]))
    end.
Proof.
  intros [Hkey Hlist] Hproducts Hprices Hdeletes.
  apply Nat.ltb_lt in Hproducts, Hprices.
  main. run.
  rewrite Hkey, Hlist. cbn [rejection]. rewrite Hproducts, Hprices.
  cbn [andb]. rewrite cleanup_run by done. cbn [trace app].
  fold preamble.
  destruct (seedProducts products _) as [[[]|e] st]; [|done].
  destruct (seedPrices prices st) as [[[]|e] st']; [|done].
  by destruct (printStats w st') as [[[]|e] st''].
Qed.


Lemma inserted_in_run tp tr :
  Forall (λ e, product_phase e = true) tp →
  Forall (λ e, price_phase e = true) tr →
  inserted_products (preamble ++ tp ++ tr) = inserted_products tp ∧
  inserted_prices (preamble ++ tp ++ tr) = inserted_prices tr.
Proof.
  intros Htp Htr.
  pose proof (product_phase_no_price _ Htp) as Hp.
  pose proof (price_phase_no_product _ Htr) as Hr.
  unfold inserted_products, inserted_prices in *.
  rewrite !omap_app, Hp, Hr. cbn. by rewrite app_nil_r.
Qed.

(** A run that fetches two non-empty pages and meets no failing
    [deleteMany] or [count] completes; [t] is its trace up to the last
    insertion. *)
Lemma sync_completes products prices d0 :
  fetches w products prices →
  (0 < List.length products)%nat →
  (0 < List.length prices)%nat →
  deletes w →
  count_all_fault w = None →
  ∃ tp tr,
    Forall (λ e, product_phase e = true) tp ∧
    Forall (λ e, price_phase e = true) tr ∧
    seedProducts products (mkProcess (mkDb [] []) preamble) =
      (Ok (), mkProcess (mkDb (inserted_products tp) []) (preamble ++ tp)) ∧
    seeded products prices =
      (Ok (),
       mkProcess (mkDb (inserted_products tp) (inserted_prices tr))
         (preamble ++ tp ++ tr)) ∧
    sync d0 =
      (0,
       mkProcess (mkDb (inserted_products tp) (inserted_prices tr))
         ((preamble ++ tp ++ tr) ++ report (preamble ++ tp ++ tr))).
Proof.
  intros Hfetch Hproducts Hprices Hdeletes Hcount.
  rewrite (sync_seeded products prices) by done.
  destruct (seeded_run products prices) as (tp & tr & Htp & Htr & Hp & ->).
  exists tp, tr. do 4 (split; [done|]).
  destruct (inserted_in_run tp tr Htp Htr) as [Hip Hir].
  unfold printStats, report. run. rewrite Hcount, Hip, Hir.
  cbn [app]. by rewrite <- !app_assoc.
Qed.

(** *** The claims about a run *)

(** C1. When the fetched price list is empty the run fails with
    'No prices found on Stripe', also when the product list is empty too;
    when only the product list is empty it fails with
    'No products found on Stripe'.  Either way it exits with code 1, the
    store is the one it started on, and the whole trace is the start
    notice, the fetch and the error report: no [deleteMany], no
    [create]. *)
Theorem empty_page_aborts_before_any_write products prices d0 :
  fetches w products prices →
  prices = [] ∨ products = [] →
  sync d0 =
    (1,
     mkProcess d0
       [console_log [text "Starting sync with Stripe"];
        called stripe_list_all None;
        console_error
          [text "Error syncing with Stripe:";
           thrown (Error match prices with
                         | [] => "No prices found on Stripe"
                         | _ :: _ => "No products found on Stripe"
                         end)]]).
Proof.
  intros [Hkey Hlist] Hempty.
  main. run. rewrite Hkey, Hlist.
  destruct prices as [|price prices']; [done|].
  destruct Hempty as [?| ->]; done.
Qed.

(** C2. Without the credential in the environment the run fails before
    the fetch: it exits with code 1, the store is the one it started on,
    and the trace holds the start notice and the error report only: no
    call to the Stripe client and none to the store. *)
Theorem missing_credential_aborts_before_any_call d0 :
  STRIPE_SECRET_KEY w = None →
  sync d0 =
    (1,
     mkProcess d0
       [console_log [text "Starting sync with Stripe"];
        console_error
          [text "Error syncing with Stripe:";
           thrown
             (Error "STRIPE_SECRET_KEY environment variable not set")]]).
Proof.
  intros Hkey. main. unfold getStripeInstance. run.
  by rewrite Hkey.
Qed.

Lemma not_created_not_inserted (t : list event) :
  Forall (λ e, ∀ row o, e ≠ called (stripeProduct_create row) o) t →
  inserted_products t = [].
Proof.
  induction 1 as [|e t He _ IH]; [done|].
  unfold inserted_products in *. cbn. rewrite IH.
  destruct e as [| |[] []]; try done. by destruct (He row None).
Qed.

Lemma seeded_in_order products tp tr (tail : list event) :
  Forall (λ e, product_phase e = true) tp →
  Forall (λ e, price_phase e = true) tr →
  seedProducts products (mkProcess (mkDb [] []) preamble) =
    (Ok (), mkProcess (mkDb (inserted_products tp) []) (preamble ++ tp)) →
  Forall (λ e, ∀ row o, e ≠ called (stripeProduct_create row) o) tail →
  ∃ early late : list event,
    preamble ++ tp ++ tr ++ tail = early ++ late ∧
    (∀ data row,
       data ∈ products →
       product_data StringToNumber data = Ok row →
       ∃ o, called (stripeProduct_create row) o ∈ early) ∧
    inserted_prices early = [] ∧
    Forall (λ e, ∀ row o, e ≠ called (stripeProduct_create row) o) late ∧
    (∀ price product,
       price ∈ inserted_prices tr →
       called (stripeProduct_create product) None
         ∈ preamble ++ tp ++ tr ++ tail →
       Product.id product = Price.productId price →
       product ∈ inserted_products tp).
Proof.
  intros Htp Htr Hp Htail.
  exists (preamble ++ tp), (tr ++ tail).
  split; [by rewrite <- !app_assoc|].
  split.
  { intros data row Hin Hrow.
    destruct (seedProducts_attempts products
                (mkProcess (mkDb [] []) preamble) data row Hin Hrow)
      as [o Ho].
    rewrite Hp in Ho. by exists o. }
  split.
  { pose proof (product_phase_no_price _ Htp) as Hnone.
    unfold inserted_prices in *. by rewrite omap_app, Hnone. }
  split.
  { apply Forall_app. split; [|done].
    eapply Forall_impl; [exact Htr|].
    by intros e He row o ->. }
  intros price product _ Hcall _.
  assert (product ∈ inserted_products (preamble ++ tp ++ tr ++ tail))
    as Hin by (apply list_elem_of_omap; by eexists).
  pose proof (not_created_not_inserted _ Htail) as Hnone.
  pose proof (price_phase_no_product _ Htr) as Hnone'.
  unfold inserted_products in *.
  by rewrite !omap_app, Hnone, Hnone', !app_nil_r in Hin.
Qed.

(** C3, as amended.  In a run that reaches the insertions the trace splits
    in two: the first part holds the [create] call of every fetched
    product whose row could be built and no [create] call for a price, the
    second part holds no [create] call for a product.  So a price row of
    the store whose [productId] is the [id] of a product row inserted in
    this run finds that product row in the store. *)
Theorem products_are_seeded_before_prices products prices d0 :
  fetches w products prices →
  (0 < List.length products)%nat →
  (0 < List.length prices)%nat →
  deletes w →
  ∃ early late : list event,
    trace (sync d0).2 = early ++ late ∧
    (∀ data row,
       data ∈ products →
       product_data StringToNumber data = Ok row →
       ∃ o, called (stripeProduct_create row) o ∈ early) ∧
    inserted_prices early = [] ∧
    Forall (λ e, ∀ row o, e ≠ called (stripeProduct_create row) o) late ∧
    (∀ price product,
       price ∈ stripePrice (db (sync d0).2) →
       called (stripeProduct_create product) None ∈ trace (sync d0).2 →
       Product.id product = Price.productId price →
       product ∈ stripeProduct (db (sync d0).2)).
Proof.
  intros Hfetch Hproducts Hprices Hdeletes.
  rewrite (sync_seeded products prices) by done.
  destruct (seeded_run products prices) as (tp & tr & Htp & Htr & Hp & ->).
  unfold printStats. run.
  destruct (count_all_fault w) as [e|].
  - rewrite <- !app_assoc. cbn [app].
    apply (seeded_in_order products tp tr); [done..|by repeat constructor].
  - rewrite <- !app_assoc. cbn [app].
    apply (seeded_in_order products tp tr); [done..|by repeat constructor].
Qed.

(** C4. A record whose insertion throws, be it while its row is built or
    in the [create] call, stops nothing.  In [seedProducts], with [st] the
    process when the turn of [data] comes: the tables stay as they are,
    the error is logged, the loop goes on with the records after [data],
    and each of them whose row can be built has its [create] call made.
    The same holds in [seedPrices].  The run as a whole then exits with
    code 0, whatever the insertions did. *)
Theorem failed_insertion_is_logged_and_skipped products prices d0 :
  fetches w products prices →
  (0 < List.length products)%nat →
  (0 < List.length prices)%nat →
  deletes w →
  count_all_fault w = None →
  (sync d0).1 = 0 ∧
  (∀ before data after st0 st e st',
     st = (seedProducts before st0).2 →
     insert_product data st = (Throw e, st') →
     db st' = db st ∧
     seedProducts (before ++ data :: after) st0 =
       seedProducts after
         (mkProcess (db st) (trace st' ++ [logged e])) ∧
     (seedProducts (before ++ data :: after) st0).1 = Ok () ∧
     ∀ next row,
       next ∈ after →
       product_data StringToNumber next = Ok row →
       ∃ o, called (stripeProduct_create row) o
              ∈ trace (seedProducts (before ++ data :: after) st0).2) ∧
  (∀ before data after st0 st e st',
     st = (seedPrices before st0).2 →
     insert_price data st = (Throw e, st') →
     db st' = db st ∧
     seedPrices (before ++ data :: after) st0 =
       seedPrices after
         (mkProcess (db st) (trace st' ++ [logged e])) ∧
     (seedPrices (before ++ data :: after) st0).1 = Ok () ∧
     ∀ next row,
       next ∈ after →
       price_data StringToNumber next = Ok row →
       ∃ o, called (stripePrice_create row) o
              ∈ trace (seedPrices (before ++ data :: after) st0).2).
Proof.
  intros Hfetch Hproducts Hprices Hdeletes Hcount.
  split.
  { destruct (sync_completes products prices d0)
      as (tp & tr & _ & _ & _ & _ & ->); done. }
  split.
  - intros before data after st0 st e st' -> Hthrow.
    destruct (insert_product_throws _ _ _ _ Hthrow) as (Hdb & _).
    assert (seedProducts (before ++ data :: after) st0 =
              seedProducts after
                (mkProcess (db (seedProducts before st0).2)
                   (trace st' ++ [logged e]))) as Hloop.
    { by rewrite seedProducts_app, seedProducts_cons, Hthrow, Hdb. }
    split; [done|]. split; [done|].
    split; [apply seedProducts_returns|].
    intros next row Hin Hrow. rewrite Hloop.
    by apply (seedProducts_attempts after _ next row).
  - intros before data after st0 st e st' -> Hthrow.
    destruct (insert_price_throws _ _ _ _ Hthrow) as (Hdb & _).
    assert (seedPrices (before ++ data :: after) st0 =
              seedPrices after
                (mkProcess (db (seedPrices before st0).2)
                   (trace st' ++ [logged e]))) as Hloop.
    { by rewrite seedPrices_app, seedPrices_cons, Hthrow, Hdb. }
    split; [done|]. split; [done|].
    split; [apply seedPrices_returns|].
    intros next row Hin Hrow. rewrite Hloop.
    by apply (seedPrices_attempts after _ next row).
Qed.

(** C5. A run over two non-empty pages that completes reports, for each
    table, the number of [create] calls of the run that returned, which is
    the number of rows of the table, and exits with code 0.  [t] is the
    trace of the run up to its last insertion; [report t] is what
    [printStats] and the completion notice add. *)
Theorem reported_counts_are_the_successful_insertions products prices d0 :
  fetches w products prices →
  (0 < List.length products)%nat →
  (0 < List.length prices)%nat →
  deletes w →
  count_all_fault w = None →
  ∃ t,
    sync d0 =
      (0,
       mkProcess (mkDb (inserted_products t) (inserted_prices t))
         (t ++ report t)).
Proof.
  intros Hfetch Hproducts Hprices Hdeletes Hcount.
  destruct (sync_completes products prices d0)
    as (tp & tr & Htp & Htr & _ & _ & ->); [done..|].
  exists (preamble ++ tp ++ tr).
  by destruct (inserted_in_run tp tr Htp Htr) as [-> ->].
Qed.

(** C10. Over the same two non-empty pages and the same answers of the
    store, the run ends the same from any two stores it may start on, so
    the store it leaves does not depend on the store it found; running
    it again on the store it left leaves that store again. *)
Theorem final_store_is_independent_of_the_initial_store products prices :
  fetches w products prices →
  (0 < List.length products)%nat →
  (0 < List.length prices)%nat →
  deletes w →
  (∀ d1 d2, sync d1 = sync d2) ∧
  (∀ d0, db (sync (db (sync d0).2)).2 = db (sync d0).2).
Proof.
  intros Hfetch Hproducts Hprices Hdeletes.
  assert (∀ d1 d2, sync d1 = sync d2) as Hsame.
  { intros d1 d2.
    by rewrite (sync_seeded products prices d1),
      (sync_seeded products prices d2). }
  split; [done|].
  intros d0. by rewrite (Hsame (db (sync d0).2) d0).
Qed.

(** *** One record *)

Lemma get_present data key v : get data key = Ok v → absent data = false.
Proof. by destruct data. Qed.


Lemma get_of_present data key :
  absent data = false → ∃ v, get data key = Ok v.
Proof. destruct data; intros; try done; by eexists. Qed.

Lemma ToNumber_plain v :
  plain v = true → ∃ n, ToNumber StringToNumber v = Ok n.
Proof.
  destruct v as [| | | | |xs|properties]; intros Hplain; try done;
    try by eexists.
  cbn in *. destruct (own "toString" properties); [done|by eexists].
Qed.

Lemma created_of_plain data seconds :
  get data "created" = Ok seconds →
  plain seconds = true →
  ∃ date, created_of StringToNumber data = Ok date.
Proof.
  intros Hget Hplain. unfold created_of. rewrite Hget.
  destruct (ToNumber_plain _ Hplain) as [n Hn].
  cbn [mbind Result_bind]. rewrite Hn. by eexists.
Qed.

(** [data.key ? data.key.toString() : otherwise], by cases. *)
Lemma toString_or_falsy data key otherwise v :
  get data key = Ok v →
  truthy v = false →
  toString_or data key otherwise = Ok otherwise.
Proof.
  intros Hget Hfalsy. unfold toString_or. rewrite Hget.
  cbn [mbind Result_bind]. by rewrite Hfalsy.
Qed.

Lemma toString_or_truthy data key otherwise v :
  get data key = Ok v →
  truthy v = true →
  toString_or data key otherwise = toString v.
Proof.
  intros Hget Htruthy. unfold toString_or. rewrite Hget.
  cbn [mbind Result_bind]. by rewrite Htruthy.
Qed.

Lemma toString_or_plain data key otherwise v :
  get data key = Ok v →
  plain v = true →
  ∃ r, toString_or data key otherwise = Ok r.
Proof.
  intros Hget Hplain. destruct (truthy v) eqn:Htruthy.
  - rewrite (toString_or_truthy _ _ _ v) by done.
    destruct v as [| | | | |xs|properties]; try done; try by eexists.
    cbn in *. destruct (own "toString" properties); [done|by eexists].
  - rewrite (toString_or_falsy _ _ _ v) by done. by eexists.
Qed.

Lemma toString_or_string data key otherwise s :
  get data key = Ok (Str s) →
  otherwise = Str "" →
  toString_or data key otherwise = Ok (Str s).
Proof.
  intros Hget ->. destruct (truthy (Str s)) eqn:Htruthy.
  - by rewrite (toString_or_truthy _ _ _ (Str s)).
  - rewrite (toString_or_falsy _ _ _ (Str s)) by done.
    cbn in Htruthy. apply negb_false_iff, String.eqb_eq in Htruthy.
    by subst.
Qed.

(** What [toString_or] can return: the alternative or a string. *)
Lemma toString_or_returns data key otherwise r :
  toString_or data key otherwise = Ok r →
  r = otherwise ∨ ∃ s, r = Str s.
Proof.
  unfold toString_or.
  destruct (get data key) as [v|e] eqn:Hget; [|done].
  cbn [mbind Result_bind].
  destruct (truthy v); [|intros [= <-]; by left].
  cbn [mbind Result_bind]. intros Hr. right.
  destruct v as [| | | | |xs|properties]; try done.
  - injection Hr as <-. by eexists.
  - injection Hr as <-. by eexists.
  - injection Hr as <-. by eexists.
  - unfold toString in Hr.
    destruct (ToString (Arr xs)); [|done].
    injection Hr as <-. by eexists.
  - cbn in Hr. destruct (own "toString" properties); [done|].
    injection Hr as <-. by eexists.
Qed.

(** The three converted fields of a price row are what [toString_or]
    returned for them. *)
Lemma price_data_converted data row :
  price_data StringToNumber data = Ok row →
  toString_or data "custom_unit_amount" Null
    = Ok (Price.customUnitAmount row) ∧
  toString_or data "tiers_mode" (Str "") = Ok (Price.tiersMode row) ∧
  toString_or data "unit_amount" Null = Ok (Price.unitAmount row).
Proof.
  unfold price_data. intros Hrow.
  repeat match type of Hrow with
         | mbind _ ?m = Ok _ =>
             destruct m eqn:?; cbn [mbind Result_bind] in Hrow; [|done]
         end.
  by injection Hrow as <-.
Qed.

(** A price row is built for every record whose converted fields are
    plain. *)
Lemma price_data_returns data seconds custom mode amount :
  get data "created" = Ok seconds →
  get data "custom_unit_amount" = Ok custom →
  get data "tiers_mode" = Ok mode →
  get data "unit_amount" = Ok amount →
  plain seconds = true →
  plain custom = true →
  plain mode = true →
  plain amount = true →
  ∃ row, price_data StringToNumber data = Ok row.
Proof.
  intros Hseconds Hcustom Hmode Hamount Ps Pc Pm Pa.
  destruct (created_of_plain _ _ Hseconds Ps) as [date Hdate].
  destruct (toString_or_plain _ _ Null _ Hcustom Pc) as [c Hc].
  destruct (toString_or_plain _ _ (Str "") _ Hmode Pm) as [m Hm].
  destruct (toString_or_plain _ _ Null _ Hamount Pa) as [a Ha].
  pose proof (get_present _ _ _ Hseconds) as Hpresent.
  unfold price_data. rewrite Hdate, Hc, Hm, Ha.
  destruct data; try done; by eexists.
Qed.



(** The [tiersMode] that [price_data] builds: a string in every row; for
    a record whose [tiers_mode] is a string or absent, and whose other
    converted fields are plain, the row is built with that string, or with
    the empty string when [tiers_mode] is absent. *)
Lemma price_data_tiersMode :
  (∀ data row,
     price_data StringToNumber data = Ok row →
     Price.tiersMode row ≠ Null ∧ ∃ s, Price.tiersMode row = Str s) ∧
  (∀ data seconds custom mode amount,
     get data "created" = Ok seconds →
     get data "custom_unit_amount" = Ok custom →
     get data "tiers_mode" = Ok mode →
     get data "unit_amount" = Ok amount →
     plain seconds = true →
     plain custom = true →
     optional_string mode = true →
     plain amount = true →
     ∃ row,
       price_data StringToNumber data = Ok row ∧
       Price.tiersMode row =
         match mode with
         | Str s => Str s
         | _ => Str ""
         end).
Proof.
  split.
  - intros data row Hrow.
    destruct (price_data_converted _ _ Hrow) as (_ & Hmode & _).
    destruct (toString_or_returns _ _ _ _ Hmode) as [->|[s ->]];
      (split; [done|by eexists]).
  - intros data seconds custom mode amount Hs Hc Hm Ha Ps Pc Pm Pa.
    assert (plain mode = true) as Pm' by (by destruct mode).
    destruct (price_data_returns data seconds custom mode amount)
      as [row Hrow]; [done..|].
    exists row. split; [done|].
    destruct (price_data_converted _ _ Hrow) as (_ & Hmode & _).
    destruct mode as [| | | |s| |]; try done.
    + rewrite (toString_or_falsy _ _ _ Undefined) in Hmode by done.
      by injection Hmode as <-.
    + rewrite (toString_or_falsy _ _ _ Null) in Hmode by done.
      by injection Hmode as <-.
    + rewrite (toString_or_string _ _ _ s) in Hmode by done.
      by injection Hmode as <-.
Qed.

(** What holds of the two amounts (C7): a number other than zero is
    stored as its decimal string and an absent amount as [null]; the
    number zero is stored as [null] too. *)
Lemma amount_of_number data key z :
  get data key = Ok (Number (Int z)) →
  toString_or data key Null =
    Ok (if z =? 0 then Null else Str (number_toString (Int z))).
Proof.
  intros Hget. destruct (z =? 0) eqn:Hz.
  - rewrite (toString_or_falsy _ _ _ (Number (Int z))); [done..|].
    cbn. by rewrite Hz.
  - rewrite (toString_or_truthy _ _ _ (Number (Int z))); [done..|].
    cbn. by rewrite Hz.
Qed.

Lemma amount_of_absent data key v :
  get data key = Ok v →
  absent v = true →
  toString_or data key Null = Ok Null.
Proof.
  intros Hget Habsent.
  rewrite (toString_or_falsy _ _ _ v); [done..|]. by destruct v.
Qed.

(** C9. A product record without [images] throws while its row is built,
    at [images.length] whenever its features could be read; the error is
    logged, no [create] call is made for it, the store is untouched and
    the loop goes on.  A record without [features] but with a list of
    [images] has its row built, with no features, and its [create] call
    made. *)
Theorem product_without_images_is_skipped :
  (∀ data,
     get data "images" = Ok Undefined →
     ∃ e,
       product_data StringToNumber data = Throw e ∧
       (∀ fs names,
          get data "features" = Ok fs →
          Js.map (or fs (Arr [])) (λ a, get a "name") = Ok names →
          e = reading "undefined" "length") ∧
       ∀ rest st,
         seedProducts (data :: rest) st =
           seedProducts rest
             (mkProcess (db st) (trace st ++ [logged e]))) ∧
  (∀ data images seconds,
     get data "features" = Ok Undefined →
     get data "images" = Ok (Arr images) →
     get data "created" = Ok seconds →
     plain seconds = true →
     ∃ row,
       product_data StringToNumber data = Ok row ∧
       Product.features row = Arr [] ∧
       ∀ rest st,
         ∃ o, called (stripeProduct_create row) o
                ∈ trace (seedProducts (data :: rest) st).2).
Proof.
  split.
  - intros data Himages.
    pose proof (get_present _ _ _ Himages) as Hpresent.
    destruct (get_of_present data "id" Hpresent) as [id Hid].
    destruct (get_of_present data "description" Hpresent) as [dsc Hdsc].
    destruct (get_of_present data "features" Hpresent) as [fs Hfs].
    assert (∃ e,
      product_data StringToNumber data = Throw e ∧
      ∀ names,
        Js.map (or fs (Arr [])) (λ a, get a "name") = Ok names →
        e = reading "undefined" "length") as (e & He & Hwhere).
    { unfold product_data. rewrite Hid, Hdsc, Hfs, Himages.
      cbn [mbind Result_bind].
      destruct (Js.map (or fs (Arr [])) _) as [names|e];
        cbn [mbind Result_bind get]; eexists; (split; [done|]).
      - done.
      - by intros names. }
    exists e. split; [done|]. split.
    + intros fs' names Hfs'. rewrite Hfs in Hfs'. injection Hfs' as <-.
      apply Hwhere.
    + intros rest st.
      by rewrite seedProducts_cons, insert_product_cases, He.
  - intros data images seconds Hfs Himages Hseconds Hplain.
    destruct (created_of_plain _ _ Hseconds Hplain) as [date Hdate].
    pose proof (get_present _ _ _ Himages) as Hpresent.
    destruct (get_of_present data "id" Hpresent) as [id Hid].
    destruct (get_of_present data "description" Hpresent) as [dsc Hdsc].
    destruct (get_of_present data "metadata" Hpresent) as [meta Hmeta].
    destruct (get_of_present data "name" Hpresent) as [name Hname].
    destruct (get_of_present data "unit_label" Hpresent) as [label Hlabel].
    assert (∃ row,
      product_data StringToNumber data = Ok row ∧
      Product.features row = Arr []) as (row & Hrow & Hnone).
    { unfold product_data.
      rewrite Hid, Hdsc, Hfs, Himages, Hmeta, Hname, Hlabel, Hdate.
      destruct images as [|url images']; by eexists. }
    exists row. split; [done|]. split; [done|].
    intros rest st.
    apply (seedProducts_attempts (data :: rest) st data row); [|done].
    apply list_elem_of_here.
Qed.


(** *** Every path of a run *)

(** [sync] by cases on what the world answers. *)
Lemma sync_unfold d0 :
  sync d0 =
    match getStripeInstance w with
    | Throw e => (1, mkProcess d0 [started; reported e])
    | Ok _ =>
        match list_all w with
        | Throw e =>
            (1,
             mkProcess d0
               [started; called stripe_list_all (Some e); reported e])
        | Ok (products, prices) =>
            if (0 <? List.length prices)%nat
               && (0 <? List.length products)%nat
            then
              match stripePrice_deleteMany_fault w with
              | Some e =>
                  (1,
                   mkProcess d0
                     [started; called stripe_list_all None;
                      called stripePrice_deleteMany (Some e); reported e])
              | None =>
                  match stripeProduct_deleteMany_fault w with
                  | Some e =>
                      (1,
                       mkProcess (mkDb (stripeProduct d0) [])
                         [started; called stripe_list_all None;
                          called stripePrice_deleteMany None;
                          called stripeProduct_deleteMany (Some e);
                          reported e])
                  | None =>
                      match seeded products prices with
                      | (Ok _, st) =>
                          match count_all_fault w with
                          | Some e =>
                              (1,
                               mkProcess (db st)
                                 (trace st
                                    ++ [called prisma_count_all (Some e);
                                        reported e]))
                          | None =>
                              (0,
                               mkProcess (db st)
                                 (trace st
                                    ++ [called prisma_count_all None;
                                        console_log
                                          [text "Products synced:";
                                           count (List.length
                                                    (stripeProduct (db st)))];
                                        console_log
                                          [text "Prices synced:";
                                           count (List.length
                                                    (stripePrice (db st)))];
                                        completed]))
                          end
                      | (Throw e, st) =>
                          (1, mkProcess (db st) (trace st ++ [reported e]))
                      end
                  end
              end
            else
              (1,
               mkProcess d0
                 [started; called stripe_list_all None;
                  reported (nothing_found prices)])
        end
    end.
Proof.
  destruct (getStripeInstance w) as [[]|e] eqn:Hkey.
  2:{ main. run. by rewrite Hkey. }
  destruct (list_all w) as [[products prices]|e] eqn:Hlist.
  2:{ main. run. by rewrite Hkey, Hlist. }
  destruct ((0 <? List.length prices)%nat && (0 <? List.length products)%nat)
    eqn:Hfull.
  2:{ main. run. rewrite Hkey, Hlist. cbn [rejection]. rewrite Hfull.
      by destruct prices. }
  destruct (stripePrice_deleteMany_fault w) as [e|] eqn:Hprice.
  { main. unfold cleanup. run. rewrite Hkey, Hlist. cbn [rejection].
    by rewrite Hfull, Hprice. }
  destruct (stripeProduct_deleteMany_fault w) as [e|] eqn:Hproduct.
  { main. unfold cleanup. run. rewrite Hkey, Hlist. cbn [rejection].
    by rewrite Hfull, Hprice, Hproduct. }
  apply andb_true_iff in Hfull as [Hprices Hproducts].
  apply Nat.ltb_lt in Hprices, Hproducts.
  rewrite (sync_seeded products prices) by done.
  destruct (seeded products prices) as [[[]|e] st]; [|done].
  unfold printStats. run.
  destruct (count_all_fault w) as [e|]; by rewrite <- !app_assoc.
Qed.

(** X1. An empty credential counts as none: the run exits with code 1 and
    makes no call to the Stripe client or to the store. *)
Theorem empty_credential_aborts_before_any_call d0 :
  STRIPE_SECRET_KEY w = Some "" →
  sync d0 =
    (1,
     mkProcess d0
       [started;
        reported (Error "STRIPE_SECRET_KEY environment variable not set")]).
Proof.
  intros Hkey. rewrite sync_unfold. unfold getStripeInstance.
  by rewrite Hkey.
Qed.

(** X2. When the fetch is rejected the run exits with code 1 and reports
    the rejection; the store is the one it started on and no [deleteMany]
    or [create] call is made. *)
Theorem rejected_fetch_aborts_before_any_write e d0 :
  getStripeInstance w = Ok () →
  list_all w = Throw e →
  sync d0 =
    (1, mkProcess d0 [started; called stripe_list_all (Some e); reported e]).
Proof. intros Hkey Hlist. by rewrite sync_unfold, Hkey, Hlist. Qed.

(** X3. When deleting the prices fails the run stops there with exit code
    1: the products are not deleted, nothing is inserted and the store is
    the one the run started on. *)
Theorem failed_price_delete_leaves_the_store products prices e d0 :
  fetches w products prices →
  (0 < List.length products)%nat →
  (0 < List.length prices)%nat →
  stripePrice_deleteMany_fault w = Some e →
  sync d0 =
    (1,
     mkProcess d0
       [started; called stripe_list_all None;
        called stripePrice_deleteMany (Some e); reported e]).
Proof.
  intros [Hkey Hlist] Hproducts Hprices Hfault.
  apply Nat.ltb_lt in Hproducts, Hprices.
  by rewrite sync_unfold, Hkey, Hlist, Hproducts, Hprices, Hfault.
Qed.

(** X4. When deleting the products fails after the prices were deleted,
    nothing is rolled back: the run exits with code 1, the price table is
    empty, the product table is the one the run started on, and nothing is
    inserted. *)
Theorem failed_product_delete_is_not_rolled_back products prices e d0 :
  fetches w products prices →
  (0 < List.length products)%nat →
  (0 < List.length prices)%nat →
  stripePrice_deleteMany_fault w = None →
  stripeProduct_deleteMany_fault w = Some e →
  sync d0 =
    (1,
     mkProcess (mkDb (stripeProduct d0) [])
       [started; called stripe_list_all None;
        called stripePrice_deleteMany None;
        called stripeProduct_deleteMany (Some e); reported e]).
Proof.
  intros [Hkey Hlist] Hproducts Hprices Hprice Hproduct.
  apply Nat.ltb_lt in Hproducts, Hprices.
  by rewrite sync_unfold, Hkey, Hlist, Hproducts, Hprices, Hprice, Hproduct.
Qed.


(** X6. The exit code is 0 or 1, and it is 0 exactly when the credential
    is set, both pages arrive and are not empty, both [deleteMany] calls
    and the count go through.  No insertion has a say in it. *)
Theorem exit_code_is_decided_outside_the_loops d0 :
  ((sync d0).1 = 0 ∨ (sync d0).1 = 1) ∧
  ((sync d0).1 = 0 ↔
   ∃ products prices,
     fetches w products prices ∧
     (0 < List.length products)%nat ∧
     (0 < List.length prices)%nat ∧
     deletes w ∧
     count_all_fault w = None).
Proof.
  rewrite sync_unfold. unfold fetches, deletes.
  destruct (getStripeInstance w) as [[]|e].
  2:{ split; [by right|]. split; [done|]. by intros (? & ? & [? ?] & _). }
  destruct (list_all w) as [[products prices]|e].
  2:{ split; [by right|]. split; [done|]. by intros (? & ? & [? ?] & _). }
  destruct (0 <? List.length prices)%nat eqn:Hprices;
    destruct (0 <? List.length products)%nat eqn:Hproducts; cbn [andb].
  2-4: split; [by right|]; split; [done|];
       intros (ps & rs & [_ [= <- <-]] & Hps & Hrs & _);
       apply Nat.ltb_lt in Hps, Hrs; congruence.
  destruct (stripePrice_deleteMany_fault w) as [e|].
  { split; [by right|]. split; [done|]. by intros (? & ? & _ & _ & _ & [? ?] & _). }
  destruct (stripeProduct_deleteMany_fault w) as [e|].
  { split; [by right|]. split; [done|]. by intros (? & ? & _ & _ & _ & [? ?] & _). }
  destruct (seeded_run products prices) as (tp & tr & _ & _ & _ & ->).
  destruct (count_all_fault w) as [e|].
  { split; [by right|]. split; [done|]. by intros (? & ? & _ & _ & _ & _ & ?). }
  split; [by left|]. split; [|done]. intros _.
  exists products, prices. apply Nat.ltb_lt in Hprices, Hproducts. done.
Qed.

(** X7. No row is inserted into a store that was not wiped: in every run
    whose trace holds a [create] call, the trace begins with the start
    notice, the fetch and the two [deleteMany] calls, all returned. *)
Theorem creates_come_after_the_wipe d0 e :
  e ∈ trace (sync d0).2 →
  is_create e = true →
  preamble `prefix_of` trace (sync d0).2.
Proof.
  rewrite sync_unfold.
  destruct (getStripeInstance w) as [[]|e0].
  2:{ cbn. intros Hin Hcreate.
    repeat (apply elem_of_cons in Hin as [->|Hin]; [done|]).
    by apply elem_of_nil in Hin. }
  destruct (list_all w) as [[products prices]|e0].
  2:{ cbn. intros Hin Hcreate.
    repeat (apply elem_of_cons in Hin as [->|Hin]; [done|]).
    by apply elem_of_nil in Hin. }
  destruct ((0 <? List.length prices)%nat && (0 <? List.length products)%nat).
  2:{ cbn. intros Hin Hcreate.
    repeat (apply elem_of_cons in Hin as [->|Hin]; [done|]).
    by apply elem_of_nil in Hin. }
  destruct (stripePrice_deleteMany_fault w) as [e0|].
  { cbn. intros Hin Hcreate.
    repeat (apply elem_of_cons in Hin as [->|Hin]; [done|]).
    by apply elem_of_nil in Hin. }
  destruct (stripeProduct_deleteMany_fault w) as [e0|].
  { cbn. intros Hin Hcreate.
    repeat (apply elem_of_cons in Hin as [->|Hin]; [done|]).
    by apply elem_of_nil in Hin. }
  destruct (seeded_run products prices) as (tp & tr & _ & _ & _ & ->).
  intros _ _.
  destruct (count_all_fault w) as [e0|]; cbn [snd trace];
    rewrite <- !app_assoc; by apply prefix_app_r.
Qed.

(** *** The loops, row by row *)

Ltac tally :=
  unfold inserted_products, inserted_prices, logged_errors in *;
  cbn in *; lia.

(** What [seedProducts] adds to the trace: one returned [create] call or
    one logged error per record, the returned rows being rows of the
    records, in their order. *)
Lemma seedProducts_rows products st :
  ∃ t,
    seedProducts products st =
      (Ok (),
       mkProcess
         (mkDb (stripeProduct (db st) ++ inserted_products t)
            (stripePrice (db st)))
         (trace st ++ t)) ∧
    (List.length (inserted_products t) + logged_errors t)%nat
      = List.length products ∧
    inserted_products t
      `sublist_of`
      omap (λ data, returned (product_data StringToNumber data)) products.
Proof.
  revert st. induction products as [|data rest IH]; intros [[ps rs] t0].
  { exists []. split; [|done]. cbn. by rewrite !app_nil_r. }
  rewrite seedProducts_cons, insert_product_cases. cbn [db trace omap].
  destruct (product_data StringToNumber data) as [row|e] eqn:Hrow.
  - destruct (stripeProduct_create_fault w t0 (mkDb ps rs) row) as [e|];
      cbn [db trace stripeProduct stripePrice].
    + destruct (IH (mkProcess (mkDb ps rs)
                      ((t0 ++ [called (stripeProduct_create row) (Some e)])
                         ++ [logged e]))) as (t & -> & Hcount & Hrows).
      exists (called (stripeProduct_create row) (Some e) :: logged e :: t).
      split; [cbn; by rewrite <- !app_assoc|].
      split; [tally|]. cbn. rewrite Hrow. by apply sublist_cons.
    + destruct (IH (mkProcess (mkDb (ps ++ [row]) rs)
                      (t0 ++ [called (stripeProduct_create row) None])))
        as (t & -> & Hcount & Hrows).
      exists (called (stripeProduct_create row) None :: t).
      split; [cbn; by rewrite <- !app_assoc|].
      split; [tally|]. cbn. rewrite Hrow. by apply sublist_skip.
  - cbn [db trace].
    destruct (IH (mkProcess (mkDb ps rs) (t0 ++ [logged e])))
      as (t & -> & Hcount & Hrows).
    exists (logged e :: t).
    split; [cbn; by rewrite <- !app_assoc|].
    split; [tally|]. cbn. by rewrite Hrow.
Qed.

Lemma seedPrices_rows prices st :
  ∃ t,
    seedPrices prices st =
      (Ok (),
       mkProcess
         (mkDb (stripeProduct (db st))
            (stripePrice (db st) ++ inserted_prices t))
         (trace st ++ t)) ∧
    (List.length (inserted_prices t) + logged_errors t)%nat
      = List.length prices ∧
    inserted_prices t
      `sublist_of`
      omap (λ data, returned (price_data StringToNumber data)) prices.
Proof.
  revert st. induction prices as [|data rest IH]; intros [[ps rs] t0].
  { exists []. split; [|done]. cbn. by rewrite !app_nil_r. }
  rewrite seedPrices_cons, insert_price_cases. cbn [db trace omap].
  destruct (price_data StringToNumber data) as [row|e] eqn:Hrow.
  - destruct (stripePrice_create_fault w t0 (mkDb ps rs) row) as [e|];
      cbn [db trace stripeProduct stripePrice].
    + destruct (IH (mkProcess (mkDb ps rs)
                      ((t0 ++ [called (stripePrice_create row) (Some e)])
                         ++ [logged e]))) as (t & -> & Hcount & Hrows).
      exists (called (stripePrice_create row) (Some e) :: logged e :: t).
      split; [cbn; by rewrite <- !app_assoc|].
      split; [tally|]. cbn. rewrite Hrow. by apply sublist_cons.
    + destruct (IH (mkProcess (mkDb ps (rs ++ [row]))
                      (t0 ++ [called (stripePrice_create row) None])))
        as (t & -> & Hcount & Hrows).
      exists (called (stripePrice_create row) None :: t).
      split; [cbn; by rewrite <- !app_assoc|].
      split; [tally|]. cbn. rewrite Hrow. by apply sublist_skip.
  - cbn [db trace].
    destruct (IH (mkProcess (mkDb ps rs) (t0 ++ [logged e])))
      as (t & -> & Hcount & Hrows).
    exists (logged e :: t).
    split; [cbn; by rewrite <- !app_assoc|].
    split; [tally|]. cbn. by rewrite Hrow.
Qed.

(** X9. The loops only add.  [seedProducts] leaves the rows of both tables
    in place and appends to the product table rows built from its records,
    in their order, at most one per record; [seedPrices] does the same on
    the price table. *)
Theorem seeding_only_appends_rows_in_fetch_order :
  (∀ products st,
     ∃ rows,
       db (seedProducts products st).2 =
         mkDb (stripeProduct (db st) ++ rows) (stripePrice (db st)) ∧
       rows `sublist_of`
         omap (λ data, returned (product_data StringToNumber data)) products ∧
       (List.length rows ≤ List.length products)%nat) ∧
  (∀ prices st,
     ∃ rows,
       db (seedPrices prices st).2 =
         mkDb (stripeProduct (db st)) (stripePrice (db st) ++ rows) ∧
       rows `sublist_of`
         omap (λ data, returned (price_data StringToNumber data)) prices ∧
       (List.length rows ≤ List.length prices)%nat).
Proof.
  split.
  - intros products st.
    destruct (seedProducts_rows products st) as (t & -> & Hcount & Hrows).
    exists (inserted_products t). split; [done|]. split; [done|]. lia.
  - intros prices st.
    destruct (seedPrices_rows prices st) as (t & -> & Hcount & Hrows).
    exists (inserted_prices t). split; [done|]. split; [done|]. lia.
Qed.

Lemma logged_errors_app t1 t2 :
  logged_errors (t1 ++ t2) = (logged_errors t1 + logged_errors t2)%nat.
Proof.
  unfold logged_errors. by rewrite List.filter_app, length_app.
Qed.

(** X10. Every fetched record is accounted for: in a run that reaches the
    insertions, the rows left in the two tables and the errors logged by
    the loops add up to the number of fetched products and prices. *)
Theorem every_record_is_inserted_or_logged products prices d0 :
  fetches w products prices →
  (0 < List.length products)%nat →
  (0 < List.length prices)%nat →
  deletes w →
  (List.length (stripeProduct (db (sync d0).2))
   + List.length (stripePrice (db (sync d0).2))
   + logged_errors (trace (sync d0).2))%nat
  = (List.length products + List.length prices)%nat.
Proof.
  intros [Hkey Hlist] Hproducts Hprices [Hprice Hproduct].
  apply Nat.ltb_lt in Hproducts, Hprices.
  rewrite sync_unfold, Hkey, Hlist, Hproducts, Hprices, Hprice, Hproduct.
  cbn [andb]. unfold seeded.
  destruct (seedProducts_rows products (mkProcess (mkDb [] []) preamble))
    as (tp & -> & Hcountp & _).
  cbn [db trace stripeProduct stripePrice app].
  destruct (seedPrices_rows prices
              (mkProcess (mkDb (inserted_products tp) []) (preamble ++ tp)))
    as (tr & -> & Hcountr & _).
  cbn [db trace stripeProduct stripePrice app].
  destruct (count_all_fault w) as [e|];
    cbn [snd db trace stripeProduct stripePrice];
    rewrite !logged_errors_app; tally.
Qed.

Lemma mapM_Ok_length {A B} (f : A → Result B) xs ys :
  mapM f xs = Ok ys → List.length ys = List.length xs.
Proof.
  revert ys. induction xs as [|x xs IH]; intros ys; cbn.
  { by intros [= <-]. }
  destruct (f x) as [y|e]; [|done]. cbn.
  destruct (mapM f xs) as [ys'|e]; [|done]. cbn.
  intros [= <-]. cbn. by rewrite (IH ys').
Qed.

Lemma seedProducts_all products rows st :
  mapM (product_data StringToNumber) products = Ok rows →
  (∀ history d row, stripeProduct_create_fault w history d row = None) →
  seedProducts products st =
    (Ok (),
     mkProcess (mkDb (stripeProduct (db st) ++ rows) (stripePrice (db st)))
       (trace st
          ++ List.map (λ row, called (stripeProduct_create row) None) rows)).
Proof.
  intros Hrows Haccepts. revert rows st Hrows.
  induction products as [|data rest IH]; intros rows [[ps rs] t0] Hrows;
    cbn in Hrows.
  { injection Hrows as <-. cbn. by rewrite !app_nil_r. }
  destruct (product_data StringToNumber data) as [row|e] eqn:Hrow; [|done].
  cbn in Hrows. destruct (mapM _ rest) as [rows'|e]; [|done].
  cbn in Hrows. injection Hrows as <-.
  rewrite seedProducts_cons, insert_product_cases, Hrow, Haccepts.
  rewrite (IH rows') by done. cbn. by rewrite <- !app_assoc.
Qed.

Lemma seedPrices_all prices rows st :
  mapM (price_data StringToNumber) prices = Ok rows →
  (∀ history d row, stripePrice_create_fault w history d row = None) →
  seedPrices prices st =
    (Ok (),
     mkProcess (mkDb (stripeProduct (db st)) (stripePrice (db st) ++ rows))
       (trace st
          ++ List.map (λ row, called (stripePrice_create row) None) rows)).
Proof.
  intros Hrows Haccepts. revert rows st Hrows.
  induction prices as [|data rest IH]; intros rows [[ps rs] t0] Hrows;
    cbn in Hrows.
  { injection Hrows as <-. cbn. by rewrite !app_nil_r. }
  destruct (price_data StringToNumber data) as [row|e] eqn:Hrow; [|done].
  cbn in Hrows. destruct (mapM _ rest) as [rows'|e]; [|done].
  cbn in Hrows. injection Hrows as <-.
  rewrite seedPrices_cons, insert_price_cases, Hrow, Haccepts.
  rewrite (IH rows') by done. cbn. by rewrite <- !app_assoc.
Qed.

(** X11. When every row can be built and the store refuses none, the run
    makes one [create] call per fetched record, products first, each in
    fetch order; it leaves in the store exactly the rows of the fetched
    records, reports the fetched counts and exits with code 0. *)
Theorem clean_sync_mirrors_the_fetch products prices rows_p rows_r d0 :
  fetches w products prices →
  (0 < List.length products)%nat →
  (0 < List.length prices)%nat →
  deletes w →
  count_all_fault w = None →
  mapM (product_data StringToNumber) products = Ok rows_p →
  mapM (price_data StringToNumber) prices = Ok rows_r →
  (∀ history d row, stripeProduct_create_fault w history d row = None) →
  (∀ history d row, stripePrice_create_fault w history d row = None) →
  sync d0 =
    (0,
     mkProcess (mkDb rows_p rows_r)
       (preamble
          ++ List.map (λ row, called (stripeProduct_create row) None) rows_p
          ++ List.map (λ row, called (stripePrice_create row) None) rows_r
          ++ [called prisma_count_all None;
              console_log [text "Products synced:";
                           count (List.length products)];
              console_log [text "Prices synced:";
                           count (List.length prices)];
              completed])).
Proof.
  intros [Hkey Hlist] Hproducts Hprices [Hprice Hproduct] Hcount Hp Hr Ap Ar.
  apply Nat.ltb_lt in Hproducts, Hprices.
  rewrite sync_unfold, Hkey, Hlist, Hproducts, Hprices, Hprice, Hproduct.
  cbn [andb]. unfold seeded.
  rewrite (seedProducts_all products rows_p) by done.
  rewrite (seedPrices_all prices rows_r) by done.
  rewrite Hcount. cbn [db trace stripeProduct stripePrice app].
  rewrite (mapM_Ok_length _ _ _ Hp), (mapM_Ok_length _ _ _ Hr).
  by rewrite <- !app_assoc.
Qed.

Lemma seedProducts_refused products st :
  (∀ history d row, stripeProduct_create_fault w history d row ≠ None) →
  db (seedProducts products st).2 = db st.
Proof.
  intros Hrefuses. revert st.
  induction products as [|data rest IH]; intros st; [done|].
  rewrite seedProducts_cons, insert_product_cases.
  destruct (product_data StringToNumber data) as [row|e].
  - pose proof (Hrefuses (trace st) (db st) row) as Hsome.
    destruct (stripeProduct_create_fault w (trace st) (db st) row) as [e|];
      [|done].
    by rewrite IH.
  - by rewrite IH.
Qed.

Lemma seedPrices_refused prices st :
  (∀ history d row, stripePrice_create_fault w history d row ≠ None) →
  db (seedPrices prices st).2 = db st.
Proof.
  intros Hrefuses. revert st.
  induction prices as [|data rest IH]; intros st; [done|].
  rewrite seedPrices_cons, insert_price_cases.
  destruct (price_data StringToNumber data) as [row|e].
  - pose proof (Hrefuses (trace st) (db st) row) as Hsome.
    destruct (stripePrice_create_fault w (trace st) (db st) row) as [e|];
      [|done].
    by rewrite IH.
  - by rewrite IH.
Qed.

(** X12. A run whose every [create] call is refused still completes: it
    exits with code 0, reports 0 products and 0 prices, and leaves both
    tables empty, whatever the store held before. *)
Theorem refused_inserts_leave_an_empty_store products prices d0 :
  fetches w products prices →
  (0 < List.length products)%nat →
  (0 < List.length prices)%nat →
  deletes w →
  count_all_fault w = None →
  (∀ history d row, stripeProduct_create_fault w history d row ≠ None) →
  (∀ history d row, stripePrice_create_fault w history d row ≠ None) →
  ∃ t,
    sync d0 =
      (0,
       mkProcess (mkDb [] [])
         (t ++ [called prisma_count_all None;
                console_log [text "Products synced:"; count 0];
                console_log [text "Prices synced:"; count 0];
                completed])).
Proof.
  intros [Hkey Hlist] Hproducts Hprices [Hprice Hproduct] Hcount Rp Rr.
  apply Nat.ltb_lt in Hproducts, Hprices.
  rewrite sync_unfold, Hkey, Hlist, Hproducts, Hprices, Hprice, Hproduct.
  cbn [andb]. unfold seeded.
  pose proof (seedProducts_refused products
                (mkProcess (mkDb [] []) preamble) Rp) as Hdbp.
  pose proof (seedProducts_returns products
                (mkProcess (mkDb [] []) preamble)) as Hokp.
  destruct (seedProducts products _) as [r1 st1]. cbn in Hdbp, Hokp. subst r1.
  pose proof (seedPrices_refused prices st1 Rr) as Hdbr.
  pose proof (seedPrices_returns prices st1) as Hokr.
  destruct (seedPrices prices st1) as [r2 st2]. cbn in Hdbr, Hokr. subst r2.
  rewrite Hcount, Hdbr, Hdbp. by exists (trace st2).
Qed.

(** *** More about one record *)

(** Where each field of a price row comes from. *)
Lemma price_data_steps data row :
  price_data StringToNumber data = Ok row →
  created_of StringToNumber data = Ok (Price.created row) ∧
  get data "id" = Ok (Price.id row) ∧
  get data "billing_scheme" = Ok (Price.billingScheme row) ∧
  get data "currency" = Ok (Price.currency row) ∧
  get data "livemode" = Ok (Price.livemode row) ∧
  get data "lookup_key" = Ok (Price.lookupKey row) ∧
  get data "metadata" = Ok (Price.metadata row) ∧
  get data "nickname" = Ok (Price.nickname row) ∧
  get data "product" = Ok (Price.productId row) ∧
  get data "recurring" = Ok (Price.recurring row) ∧
  get data "type" = Ok (Price.type row) ∧
  get data "unit_amount_decimal" = Ok (Price.unitAmountDecimal row).
Proof.
  unfold price_data. intros Hrow.
  repeat match type of Hrow with
         | mbind _ ?m = Ok _ =>
             destruct m eqn:?; cbn [mbind Result_bind] in Hrow; [|done]
         end.
  by injection Hrow as <-.
Qed.

Lemma product_data_steps data row :
  product_data StringToNumber data = Ok row →
  created_of StringToNumber data = Ok (Product.created row) ∧
  get data "id" = Ok (Product.id row) ∧
  get data "metadata" = Ok (Product.metadata row) ∧
  get data "name" = Ok (Product.name row) ∧
  get data "unit_label" = Ok (Product.unitLabel row).
Proof.
  unfold product_data. intros Hrow.
  repeat match type of Hrow with
         | mbind _ ?m = Ok _ =>
             destruct m eqn:?; cbn [mbind Result_bind] in Hrow; [|done]
         end.
  by injection Hrow as <-.
Qed.

Lemma created_of_seconds data seconds :
  get data "created" = Ok (Number (Int seconds)) →
  created_of StringToNumber data =
    Ok (if Z.abs (seconds * 1000) <=? 8640000000000000
        then mkDate (Int (seconds * 1000))
        else mkDate NaN).
Proof.
  intros Hget. unfold created_of. rewrite Hget. cbn.
  by destruct (Z.abs (seconds * 1000) <=? 8640000000000000).
Qed.

Lemma created_of_undefined data :
  get data "created" = Ok Undefined →
  created_of StringToNumber data = Ok (mkDate NaN).
Proof. intros Hget. unfold created_of. by rewrite Hget. Qed.

(** X13. The provider sends [custom_unit_amount] as an object.  For every
    price record that carries one, the row is built and its
    [customUnitAmount] is the string "[object Object]": the three amounts
    inside the object are not stored. *)
Theorem custom_unit_amount_object_is_flattened
    data seconds properties mode amount :
  get data "created" = Ok seconds →
  get data "custom_unit_amount" = Ok (Obj properties) →
  get data "tiers_mode" = Ok mode →
  get data "unit_amount" = Ok amount →
  plain seconds = true →
  own "toString" properties = None →
  plain mode = true →
  plain amount = true →
  ∃ row,
    price_data StringToNumber data = Ok row ∧
    Price.customUnitAmount row = Str "[object Object]".
Proof.
  intros Hseconds Hcustom Hmode Hamount Ps Pc Pm Pa.
  assert (plain (Obj properties) = true) as Pc' by (cbn; by rewrite Pc).
  destruct (price_data_returns data seconds (Obj properties) mode amount)
    as [row Hrow]; [done..|].
  exists row. split; [done|].
  destruct (price_data_converted _ _ Hrow) as (Hconverted & _).
  rewrite (toString_or_truthy _ _ _ (Obj properties)) in Hconverted by done.
  cbn in Hconverted. rewrite Pc in Hconverted. by injection Hconverted as <-.
Qed.

(** X14. The [created] of a row, for products and prices alike, is the
    date at 1000 times the record's seconds as long as that lies within
    8.64e15 milliseconds of the epoch, and the invalid date beyond.  A
    record without [created] gets the invalid date too: the missing field
    is no error. *)
Theorem created_is_seconds_times_1000_or_invalid :
  (∀ data row,
     price_data StringToNumber data = Ok row →
     (∀ seconds,
        get data "created" = Ok (Number (Int seconds)) →
        Price.created row =
          if Z.abs (seconds * 1000) <=? 8640000000000000
          then mkDate (Int (seconds * 1000))
          else mkDate NaN) ∧
     (get data "created" = Ok Undefined →
      Price.created row = mkDate NaN)) ∧
  (∀ data row,
     product_data StringToNumber data = Ok row →
     (∀ seconds,
        get data "created" = Ok (Number (Int seconds)) →
        Product.created row =
          if Z.abs (seconds * 1000) <=? 8640000000000000
          then mkDate (Int (seconds * 1000))
          else mkDate NaN) ∧
     (get data "created" = Ok Undefined →
      Product.created row = mkDate NaN)).
Proof.
  split; intros data row Hrow.
  - destruct (price_data_steps _ _ Hrow) as (Hcreated & _).
    split.
    + intros seconds Hget.
      rewrite (created_of_seconds _ seconds) in Hcreated by done.
      by injection Hcreated as <-.
    + intros Hget. rewrite created_of_undefined in Hcreated by done.
      by injection Hcreated as <-.
  - destruct (product_data_steps _ _ Hrow) as (Hcreated & _).
    split.
    + intros seconds Hget.
      rewrite (created_of_seconds _ seconds) in Hcreated by done.
      by injection Hcreated as <-.
    + intros Hget. rewrite created_of_undefined in Hcreated by done.
      by injection Hcreated as <-.
Qed.

Lemma mapM_names_absent (xs : list value) a :
  a ∈ xs →
  absent a = true →
  ∃ e, mapM (λ a, get a "name") xs = Throw e.
Proof.
  intros Hin Habsent.
  induction Hin as [a xs|a b xs _ IH]; cbn [mapM].
  - destruct a; try done; by eexists.
  - destruct (get b "name") as [name|e]; [|by eexists].
    destruct (IH Habsent) as [e ->]. by eexists.
Qed.

(** X16. A product record whose [features] is neither absent nor a list,
    or is a list with an [undefined] or [null] element, throws while its
    row is built: the product is logged and skipped, and the loop goes
    on. *)
Theorem malformed_features_skip_the_product data fs :
  get data "features" = Ok fs →
  (truthy fs = true ∧ ∀ xs, fs ≠ Arr xs) ∨
  (∃ xs a, fs = Arr xs ∧ a ∈ xs ∧ absent a = true) →
  ∃ e,
    product_data StringToNumber data = Throw e ∧
    ∀ rest st,
      seedProducts (data :: rest) st =
        seedProducts rest (mkProcess (db st) (trace st ++ [logged e])).
Proof.
  intros Hfs Hbad.
  pose proof (get_present _ _ _ Hfs) as Hpresent.
  destruct (get_of_present data "id" Hpresent) as [id Hid].
  destruct (get_of_present data "description" Hpresent) as [dsc Hdsc].
  assert (∃ e, Js.map (or fs (Arr [])) (λ a, get a "name") = Throw e)
    as [e He].
  { destruct Hbad as [[Htruthy Hshape]|(xs & a & -> & Hin & Habsent)].
    - unfold or. rewrite Htruthy.
      destruct fs as [| | | | |xs|]; try done; try by eexists.
      by destruct (Hshape xs).
    - destruct (mapM_names_absent xs a Hin Habsent) as [e He].
      exists e. cbn. by rewrite He. }
  exists e. split.
  - unfold product_data. rewrite Hid, Hdsc, Hfs. cbn [mbind Result_bind].
    by rewrite He.
  - intros rest st. rewrite seedProducts_cons, insert_product_cases.
    unfold product_data. rewrite Hid, Hdsc, Hfs. cbn [mbind Result_bind].
    by rewrite He.
Qed.

(** *** The rows that a run inserts *)

Lemma returned_Ok {A} (r : Result A) a : returned r = Some a → r = Ok a.
Proof. destruct r; cbn; congruence. Qed.

(** [v.toString()] is the string conversion of [v]. *)
Lemma toString_ToString v r :
  toString v = Ok r → ∃ s, ToString v = Ok s ∧ r = Str s.
Proof.
  destruct v as [| | | | |xs|properties]; cbn [toString]; try done.
  - intros [= <-]. by eexists.
  - intros [= <-]. by eexists.
  - intros [= <-]. by eexists.
  - destruct (ToString (Arr xs)) as [s|e]; [|done].
    intros [= <-]. by eexists.
  - cbn [ToString]. destruct (own "toString" properties); [done|].
    intros [= <-]. by eexists.
Qed.

(** A run that reaches the insertions, as two loops: what [seedProducts]
    adds to the trace ([tp]) and then [seedPrices] ([tr]), with the rows
    and the [create] calls of each, and the process that is left. *)
Lemma sync_inserts products prices d0 :
  fetches w products prices →
  (0 < List.length products)%nat →
  (0 < List.length prices)%nat →
  deletes w →
  ∃ tp tr tail : list event,
    inserted_products tp
      `sublist_of`
      omap (λ data, returned (product_data StringToNumber data)) products ∧
    inserted_prices tr
      `sublist_of`
      omap (λ data, returned (price_data StringToNumber data)) prices ∧
    inserted_prices tp = [] ∧
    (∀ data row,
       data ∈ products →
       product_data StringToNumber data = Ok row →
       ∃ o, called (stripeProduct_create row) o ∈ preamble ++ tp) ∧
    (∀ data row,
       data ∈ prices →
       price_data StringToNumber data = Ok row →
       ∃ o, called (stripePrice_create row) o ∈ preamble ++ tp ++ tr) ∧
    (sync d0).2 =
      mkProcess (mkDb (inserted_products tp) (inserted_prices tr))
        (preamble ++ tp ++ tr ++ tail).
Proof.
  intros [Hkey Hlist] Hproducts Hprices [Hprice Hproduct].
  apply Nat.ltb_lt in Hproducts, Hprices.
  rewrite sync_unfold, Hkey, Hlist, Hproducts, Hprices, Hprice, Hproduct.
  cbn [andb]. unfold seeded.
  destruct (seedProducts_run products (mkProcess (mkDb [] []) preamble))
    as (t1 & Hphase & Heq1).
  destruct (seedProducts_rows products (mkProcess (mkDb [] []) preamble))
    as (tp & Heqp & _ & Hsubp).
  cbn [db trace stripeProduct stripePrice app] in Heq1, Heqp.
  assert (t1 = tp) as ->.
  { rewrite Heqp in Heq1. injection Heq1 as _ Heq1. congruence. }
  destruct (seedPrices_rows prices
              (mkProcess (mkDb (inserted_products tp) []) (preamble ++ tp)))
    as (tr & Heqr & _ & Hsubr).
  cbn [db trace stripeProduct stripePrice app] in Heqr.
  assert (∀ data row,
    data ∈ products →
    product_data StringToNumber data = Ok row →
    ∃ o, called (stripeProduct_create row) o ∈ preamble ++ tp) as Hattp.
  { intros data row Hin Hrow.
    destruct (seedProducts_attempts products
                (mkProcess (mkDb [] []) preamble) data row Hin Hrow)
      as [o Ho].
    rewrite Heqp in Ho. by exists o. }
  assert (∀ data row,
    data ∈ prices →
    price_data StringToNumber data = Ok row →
    ∃ o, called (stripePrice_create row) o ∈ preamble ++ tp ++ tr) as Hattr.
  { intros data row Hin Hrow.
    destruct (seedPrices_attempts prices
                (mkProcess (mkDb (inserted_products tp) []) (preamble ++ tp))
                data row Hin Hrow) as [o Ho].
    rewrite Heqr in Ho. cbn [snd trace] in Ho.
    rewrite <- app_assoc in Ho. by exists o. }
  rewrite Heqp, Heqr.
  pose proof (product_phase_no_price _ Hphase) as Hnone.
  destruct (count_all_fault w) as [e|]; exists tp, tr; eexists;
    (do 5 (split; [done|])); cbn [snd db trace]; by rewrite <- !app_assoc.
Qed.


Lemma returned_price_in_table (tp tr : list event) row :
  inserted_prices tp = [] →
  called (stripePrice_create row) None ∈ preamble ++ tp ++ tr →
  row ∈ inserted_prices tr.
Proof.
  intros Hnone Hin.
  assert (row ∈ inserted_prices (preamble ++ tp ++ tr)) as Hrow
    by (apply list_elem_of_omap; by eexists).
  unfold inserted_prices in *. by rewrite !omap_app, Hnone in Hrow.
Qed.


(** C8.  In a run that reaches the insertions, the [tiersMode] of every
    row of the price table is a string, never [null]: the row is built
    from a fetched price, and its [tiersMode] is that record's
    [tiers_mode] when it is a string, the empty string when it is absent,
    and its string conversion whenever it is truthy.  Every fetched price
    whose [tiers_mode] is a string or absent, and whose other converted
    fields are plain, has its row built and handed to [create], and in
    the table when [create] returns, with that string or the empty
    string. *)
Theorem inserted_tiersMode_is_never_null products prices d0 :
  fetches w products prices →
  (0 < List.length products)%nat →
  (0 < List.length prices)%nat →
  deletes w →
  (∀ row,
     row ∈ stripePrice (db (sync d0).2) →
     Price.tiersMode row ≠ Null ∧
     ∃ data mode,
       data ∈ prices ∧
       price_data StringToNumber data = Ok row ∧
       get data "tiers_mode" = Ok mode ∧
       (∀ s, mode = Str s → Price.tiersMode row = Str s) ∧
       (absent mode = true → Price.tiersMode row = Str "") ∧
       (truthy mode = true →
        ∃ s, ToString mode = Ok s ∧ Price.tiersMode row = Str s)) ∧
  (∀ data seconds custom mode amount,
     data ∈ prices →
     get data "created" = Ok seconds →
     get data "custom_unit_amount" = Ok custom →
     get data "tiers_mode" = Ok mode →
     get data "unit_amount" = Ok amount →
     plain seconds = true →
     plain custom = true →
     optional_string mode = true →
     plain amount = true →
     ∃ row o,
       price_data StringToNumber data = Ok row ∧
       called (stripePrice_create row) o ∈ trace (sync d0).2 ∧
       (o = None → row ∈ stripePrice (db (sync d0).2)) ∧
       Price.tiersMode row =
         match mode with
         | Str s => Str s
         | _ => Str ""
         end).
Proof.
  intros Hfetch Hproducts Hprices Hdeletes.
  destruct (sync_inserts products prices d0)
    as (tp & tr & tail & _ & Hsubr & Hnone & _ & Hattr & ->); [done..|].
  cbn [db trace stripeProduct stripePrice]. split.
  - intros row Hin.
    pose proof (elem_of_sublist _ _ _ Hin Hsubr) as Hrow.
    apply list_elem_of_omap in Hrow as (data & Hdata & Hrow).
    apply returned_Ok in Hrow.
    split; [apply (proj1 price_data_tiersMode data row Hrow)|].
    destruct (price_data_steps _ _ Hrow) as (_ & Hid & _).
    destruct (get_of_present data "tiers_mode" (get_present _ _ _ Hid))
      as [mode Hmode].
    destruct (price_data_converted _ _ Hrow) as (_ & Hconverted & _).
    exists data, mode. do 3 (split; [done|]).
    split; [|split].
    + intros s ->.
      rewrite (toString_or_string _ _ _ s) in Hconverted by done.
      by injection Hconverted as <-.
    + intros Habsent.
      rewrite (toString_or_falsy _ _ _ mode) in Hconverted
        by (done || by destruct mode).
      by injection Hconverted as <-.
    + intros Htruthy.
      rewrite (toString_or_truthy _ _ _ mode) in Hconverted by done.
      destruct (toString_ToString _ _ Hconverted) as (s & Hs & ->).
      by exists s.
  - intros data seconds custom mode amount Hin Hs Hc Hm Ha Ps Pc Pm Pa.
    destruct (proj2 price_data_tiersMode data seconds custom mode amount)
      as (row & Hrow & Hmode); [done..|].
    destruct (Hattr data row Hin Hrow) as [o Ho].
    exists row, o. split; [done|]. split.
    { rewrite !app_assoc. apply elem_of_app. left.
      by rewrite <- !app_assoc. }
    split; [|done].
    intros ->. by apply (returned_price_in_table tp tr row).
Qed.


(** X15.  A run stores nothing that it did not fetch.  In a run that
    reaches the insertions, the rows of each table are rows built from
    the fetched records, in fetch order, and the fields that the script
    does not convert are in the store as the record has them, [undefined]
    where it has none: eleven fields of a price row, among them
    [productId], which is the record's [product] whatever it is, and four
    fields of a product row. *)
Theorem stored_rows_come_from_the_fetch products prices d0 :
  fetches w products prices →
  (0 < List.length products)%nat →
  (0 < List.length prices)%nat →
  deletes w →
  stripeProduct (db (sync d0).2)
    `sublist_of`
    omap (λ data, returned (product_data StringToNumber data)) products ∧
  stripePrice (db (sync d0).2)
    `sublist_of`
    omap (λ data, returned (price_data StringToNumber data)) prices ∧
  (∀ row,
     row ∈ stripePrice (db (sync d0).2) →
     ∃ data,
       data ∈ prices ∧
       get data "id" = Ok (Price.id row) ∧
       get data "billing_scheme" = Ok (Price.billingScheme row) ∧
       get data "currency" = Ok (Price.currency row) ∧
       get data "livemode" = Ok (Price.livemode row) ∧
       get data "lookup_key" = Ok (Price.lookupKey row) ∧
       get data "metadata" = Ok (Price.metadata row) ∧
       get data "nickname" = Ok (Price.nickname row) ∧
       get data "product" = Ok (Price.productId row) ∧
       get data "recurring" = Ok (Price.recurring row) ∧
       get data "type" = Ok (Price.type row) ∧
       get data "unit_amount_decimal" = Ok (Price.unitAmountDecimal row)) ∧
  (∀ row,
     row ∈ stripeProduct (db (sync d0).2) →
     ∃ data,
       data ∈ products ∧
       get data "id" = Ok (Product.id row) ∧
       get data "metadata" = Ok (Product.metadata row) ∧
       get data "name" = Ok (Product.name row) ∧
       get data "unit_label" = Ok (Product.unitLabel row)).
Proof.
  intros Hfetch Hproducts Hprices Hdeletes.
  destruct (sync_inserts products prices d0)
    as (tp & tr & tail & Hsubp & Hsubr & _ & _ & _ & ->); [done..|].
  cbn [db trace stripeProduct stripePrice].
  split; [done|]. split; [done|]. split.
  - intros row Hin.
    pose proof (elem_of_sublist _ _ _ Hin Hsubr) as Hrow.
    apply list_elem_of_omap in Hrow as (data & Hdata & Hrow).
    apply returned_Ok in Hrow.
    exists data. split; [done|].
    by destruct (price_data_steps _ _ Hrow) as (_ & ?).
  - intros row Hin.
    pose proof (elem_of_sublist _ _ _ Hin Hsubp) as Hrow.
    apply list_elem_of_omap in Hrow as (data & Hdata & Hrow).
    apply returned_Ok in Hrow.
    exists data. split; [done|].
    by destruct (product_data_steps _ _ Hrow) as (_ & ?).
Qed.
End Properties.

(** ** The claims on sample runs *)

Import Sample.

(** C7: the code misses the amount zero.  The free price, whose
    [unit_amount] is the number 0, gets a row whose [unitAmount] is [null]
    and not the string of 0, while its [unitAmountDecimal] is passed
    through as "0". *)
Theorem unit_amount_zero_is_stored_as_null (StringToNumber : string → number) :
  ∃ row,
    price_data StringToNumber price_free = Ok row ∧
    get price_free "unit_amount" = Ok (Number (Int 0)) ∧
    Price.unitAmount row = Null ∧
    Price.unitAmountDecimal row = Str "0".
Proof. by eexists. Qed.

(** The bare product has the [id] of a fetched product and no row; the
    price that names it is inserted all the same. *)
Lemma bare_product_run :
  sync unparsed (world (Some "sk_test_1") [prod_bare; prod_2] [price_1]) empty
  = (0,
     mkProcess
       (mkDb
          [Product.mk (Str "prod_2") (Str "For teams")
             (Arr [Str "SSO"; Str "Audit logs"])
             (Str "https://files.example/team.png") (Obj []) (Str "Team")
             (Str "seat") (mkDate (Int 1700000000000))]
          [Price.mk (Str "price_1") (Str "per_unit")
             (mkDate (Int 1700000000000)) (Str "usd") Null (Bool false)
             Undefined Undefined Undefined (Str "prod_1") Undefined (Str "")
             Undefined (Str "1000") Undefined])
       (trace
          (sync unparsed
             (world (Some "sk_test_1") [prod_bare; prod_2] [price_1])
             empty).2)).
Proof. vm_compute. reflexivity. Qed.

(** C3 as stated fails: after a run over the bare product, the product
    [prod_2] and the price of [prod_1], the store holds a price whose
    [productId] is the [id] of a fetched product, and no product row with
    that [id]. *)
Lemma inserted_price_without_its_product :
  (sync unparsed (world (Some "sk_test_1") [prod_bare; prod_2] [price_1])
     empty).1 = 0 ∧
  ¬ owners_present [prod_bare; prod_2]
      (db (sync unparsed
             (world (Some "sk_test_1") [prod_bare; prod_2] [price_1])
             empty).2).
Proof.
  rewrite bare_product_run. split; [done|].
  cbn [snd db]. intros Howners.
  destruct (Howners
              (Price.mk (Str "price_1") (Str "per_unit")
                 (mkDate (Int 1700000000000)) (Str "usd") Null (Bool false)
                 Undefined Undefined Undefined (Str "prod_1") Undefined
                 (Str "") Undefined (Str "1000") Undefined)
              prod_bare) as (product & Hin & Hid).
  - apply list_elem_of_here.
  - apply list_elem_of_here.
  - done.
  - cbn in Hin. apply list_elem_of_singleton in Hin. by subst.
Qed.

(** The end-to-end scenario of the specification, on a store that holds the
    rows of an earlier sync: the old rows are gone, one product and one
    price are in, the counts are 1 and 1 and the exit code is 0. *)
Example end_to_end_scenario :
  ∃ product price,
    product_data unparsed prod_1 = Ok product ∧
    price_data unparsed price_1 = Ok price ∧
    Product.description product = Str "" ∧
    Product.image product = Str "" ∧
    Price.unitAmount price = Str "1000" ∧
    Price.tiersMode price = Str "" ∧
    sync unparsed (world (Some "sk_test_1") [prod_1] [price_1]) stale =
      (0,
       mkProcess (mkDb [product] [price])
         (preamble
            ++ [called (stripeProduct_create product) None;
                called (stripePrice_create price) None;
                called prisma_count_all None;
                console_log [text "Products synced:"; count 1];
                console_log [text "Prices synced:"; count 1];
                console_log [text "Sync completed successfully"]])).
Proof. do 2 eexists. repeat split. Qed.

(** A duplicate identifier: the second insertion of [price_1] is refused by
    the store and skipped, the price after it is inserted, and the run
    reports 2 prices for the 3 it fetched. *)
Example duplicate_is_skipped :
  let run :=
    sync unparsed
      (world (Some "sk_test_1") [prod_1; prod_2]
         [price_1; price_1; price_tiered]) empty in
  run.1 = 0 ∧
  List.length (stripePrice (db run.2)) = 2%nat ∧
  List.length (filter (λ e, bool_decide (inserted_price e ≠ None))
                 (trace run.2)) = 2%nat ∧
  console_log [text "Prices synced:"; count 2] ∈ trace run.2.
Proof.
  vm_compute. repeat split.
  repeat first [apply list_elem_of_here | apply list_elem_of_further].
Qed.

(** C1 on three fetches, started on the store of an earlier sync: no
    prices, no products, and neither. *)
Lemma empty_page_aborts_witness :
  (fetches (world sk [] []) [] [] ∧
   sync unparsed (world sk [] []) stale =
     (1,
      mkProcess stale
        [console_log [text "Starting sync with Stripe"];
         called stripe_list_all None;
         console_error
           [text "Error syncing with Stripe:";
            thrown (Error "No prices found on Stripe")]])) ∧
  (fetches (world sk [prod_1] []) [prod_1] [] ∧
   sync unparsed (world sk [prod_1] []) stale =
     (1,
      mkProcess stale
        [console_log [text "Starting sync with Stripe"];
         called stripe_list_all None;
         console_error
           [text "Error syncing with Stripe:";
            thrown (Error "No prices found on Stripe")]])) ∧
  (fetches (world sk [] [price_1]) [] [price_1] ∧
   sync unparsed (world sk [] [price_1]) stale =
     (1,
      mkProcess stale
        [console_log [text "Starting sync with Stripe"];
         called stripe_list_all None;
         console_error
           [text "Error syncing with Stripe:";
            thrown (Error "No products found on Stripe")]])).
Proof.
  split; [|split]; (split; [split; reflexivity|]).
  - exact (empty_page_aborts_before_any_write unparsed (world sk [] [])
             [] [] stale (conj eq_refl eq_refl) (or_introl eq_refl)).
  - exact (empty_page_aborts_before_any_write unparsed (world sk [prod_1] [])
             [prod_1] [] stale (conj eq_refl eq_refl) (or_introl eq_refl)).
  - exact (empty_page_aborts_before_any_write unparsed (world sk [] [price_1])
             [] [price_1] stale (conj eq_refl eq_refl) (or_intror eq_refl)).
Defined.

(** C2 on a world without the credential, started on the store of an
    earlier sync. *)
Lemma missing_credential_witness :
  STRIPE_SECRET_KEY (world None [prod_1] [price_1]) = None ∧
  sync unparsed (world None [prod_1] [price_1]) stale =
    (1,
     mkProcess stale
       [console_log [text "Starting sync with Stripe"];
        console_error
          [text "Error syncing with Stripe:";
           thrown (Error "STRIPE_SECRET_KEY environment variable not set")]]).
Proof.
  split; [reflexivity|].
  exact (missing_credential_aborts_before_any_call unparsed
           (world None [prod_1] [price_1]) stale eq_refl).
Defined.

(** C3, as amended, on the run of the bare product. *)
Lemma products_are_seeded_before_prices_witness :
  let w := world sk [prod_bare; prod_2] [price_1] in
  fetches w [prod_bare; prod_2] [price_1] ∧
  (0 < List.length [prod_bare; prod_2])%nat ∧
  (0 < List.length [price_1])%nat ∧
  deletes w ∧
  ∃ early late : list event,
    trace (sync unparsed w stale).2 = early ++ late ∧
    inserted_prices early = [] ∧
    Forall (λ e, ∀ row o, e ≠ called (stripeProduct_create row) o) late.
Proof.
  intros w.
  assert (fetches w [prod_bare; prod_2] [price_1]) as Hfetch
    by (split; reflexivity).
  assert (0 < List.length [prod_bare; prod_2])%nat as Hproducts
    by (simpl; lia).
  assert (0 < List.length [price_1])%nat as Hprices by (simpl; lia).
  assert (deletes w) as Hdeletes by (split; reflexivity).
  do 4 (split; [assumption|]).
  destruct (products_are_seeded_before_prices unparsed w
              [prod_bare; prod_2] [price_1] stale
              Hfetch Hproducts Hprices Hdeletes)
    as (early & late & Htrace & _ & Hnone & Hlate & _).
  exists early, late. repeat split; assumption.
Defined.

(** C4 on a run with a product that has no images and a price fetched
    twice. *)
Lemma failed_insertion_witness :
  let w := world sk [prod_bare; prod_2] [price_1; price_1; price_tiered] in
  fetches w [prod_bare; prod_2] [price_1; price_1; price_tiered] ∧
  (0 < List.length [prod_bare; prod_2])%nat ∧
  (0 < List.length [price_1; price_1; price_tiered])%nat ∧
  deletes w ∧
  count_all_fault w = None ∧
  (sync unparsed w stale).1 = 0.
Proof.
  intros w.
  assert (fetches w [prod_bare; prod_2] [price_1; price_1; price_tiered])
    as Hfetch by (split; reflexivity).
  assert (0 < List.length [prod_bare; prod_2])%nat as Hproducts
    by (simpl; lia).
  assert (0 < List.length [price_1; price_1; price_tiered])%nat as Hprices
    by (simpl; lia).
  assert (deletes w) as Hdeletes by (split; reflexivity).
  assert (count_all_fault w = None) as Hcount by reflexivity.
  do 5 (split; [assumption|]).
  exact (proj1 (failed_insertion_is_logged_and_skipped unparsed w
                  [prod_bare; prod_2] [price_1; price_1; price_tiered] stale
                  Hfetch Hproducts Hprices Hdeletes Hcount)).
Defined.

(** C5 on the same run. *)
Lemma reported_counts_witness :
  let w := world sk [prod_bare; prod_2] [price_1; price_1; price_tiered] in
  fetches w [prod_bare; prod_2] [price_1; price_1; price_tiered] ∧
  (0 < List.length [prod_bare; prod_2])%nat ∧
  (0 < List.length [price_1; price_1; price_tiered])%nat ∧
  deletes w ∧
  count_all_fault w = None ∧
  ∃ t,
    sync unparsed w stale =
      (0,
       mkProcess (mkDb (inserted_products t) (inserted_prices t))
         (t ++ report t)).
Proof.
  intros w.
  assert (fetches w [prod_bare; prod_2] [price_1; price_1; price_tiered])
    as Hfetch by (split; reflexivity).
  assert (0 < List.length [prod_bare; prod_2])%nat as Hproducts
    by (simpl; lia).
  assert (0 < List.length [price_1; price_1; price_tiered])%nat as Hprices
    by (simpl; lia).
  assert (deletes w) as Hdeletes by (split; reflexivity).
  assert (count_all_fault w = None) as Hcount by reflexivity.
  do 5 (split; [assumption|]).
  exact (reported_counts_are_the_successful_insertions unparsed w
           [prod_bare; prod_2] [price_1; price_1; price_tiered] stale
           Hfetch Hproducts Hprices Hdeletes Hcount).
Defined.

(** C10: from the empty store and from the store of an earlier sync. *)
Lemma final_store_witness :
  let w := world sk [prod_1; prod_2] [price_1; price_tiered] in
  fetches w [prod_1; prod_2] [price_1; price_tiered] ∧
  (0 < List.length [prod_1; prod_2])%nat ∧
  (0 < List.length [price_1; price_tiered])%nat ∧
  deletes w ∧
  sync unparsed w empty = sync unparsed w stale ∧
  db (sync unparsed w (db (sync unparsed w stale).2)).2
    = db (sync unparsed w stale).2.
Proof.
  intros w.
  assert (fetches w [prod_1; prod_2] [price_1; price_tiered]) as Hfetch
    by (split; reflexivity).
  assert (0 < List.length [prod_1; prod_2])%nat as Hproducts by (simpl; lia).
  assert (0 < List.length [price_1; price_tiered])%nat as Hprices
    by (simpl; lia).
  assert (deletes w) as Hdeletes by (split; reflexivity).
  do 4 (split; [assumption|]).
  destruct (final_store_is_independent_of_the_initial_store unparsed w
              [prod_1; prod_2] [price_1; price_tiered]
              Hfetch Hproducts Hprices Hdeletes) as [Hsame Hagain].
  split; [apply Hsame|apply Hagain].
Defined.

(** C9 on the bare product and on a product without [features]. *)
Lemma product_without_images_witness :
  get prod_bare "images" = Ok Undefined ∧
  product_data unparsed prod_bare = Throw (reading "undefined" "length") ∧
  get prod_plain "features" = Ok Undefined ∧
  ∃ row,
    product_data unparsed prod_plain = Ok row ∧
    Product.features row = Arr [].
Proof.
  split; [reflexivity|]. split.
  - destruct (proj1 (product_without_images_is_skipped unparsed
                       (world sk [] [])) prod_bare eq_refl)
      as (e & Hthrows & Hwhere & _).
    rewrite Hthrows. f_equal.
    exact (Hwhere Undefined (Arr []) eq_refl eq_refl).
  - split; [reflexivity|].
    destruct (proj2 (product_without_images_is_skipped unparsed
                       (world sk [] [])) prod_plain []
                (Number (Int 1700000000)) eq_refl eq_refl eq_refl eq_refl)
      as (row & Hrow & Hnone & _).
    exists row. split; assumption.
Defined.

(** ** The further properties on sample runs *)

(** X1 on a world whose credential is the empty string. *)
Lemma empty_credential_witness :
  STRIPE_SECRET_KEY (world (Some "") [prod_1] [price_1]) = Some "" ∧
  sync unparsed (world (Some "") [prod_1] [price_1]) stale =
    (1,
     mkProcess stale
       [started;
        reported (Error "STRIPE_SECRET_KEY environment variable not set")]).
Proof.
  split; [reflexivity|].
  exact (empty_credential_aborts_before_any_call unparsed
           (world (Some "") [prod_1] [price_1]) stale eq_refl).
Defined.

(** X2 on a world whose fetch times out. *)
Lemma rejected_fetch_witness :
  getStripeInstance (offline timeout) = Ok () ∧
  list_all (offline timeout) = Throw timeout ∧
  sync unparsed (offline timeout) stale =
    (1,
     mkProcess stale
       [started; called stripe_list_all (Some timeout); reported timeout]).
Proof.
  split; [reflexivity|]. split; [reflexivity|].
  exact (rejected_fetch_aborts_before_any_write unparsed (offline timeout)
           timeout stale eq_refl eq_refl).
Defined.

(** X3 on a store whose first [deleteMany] times out. *)
Lemma failed_price_delete_witness :
  let w := faulty (Some timeout) None None [prod_1] [price_1] in
  fetches w [prod_1] [price_1] ∧
  (0 < List.length [prod_1])%nat ∧
  (0 < List.length [price_1])%nat ∧
  stripePrice_deleteMany_fault w = Some timeout ∧
  sync unparsed w stale =
    (1,
     mkProcess stale
       [started; called stripe_list_all None;
        called stripePrice_deleteMany (Some timeout); reported timeout]).
Proof.
  intros w.
  assert (fetches w [prod_1] [price_1]) as Hfetch by (split; reflexivity).
  assert (0 < List.length [prod_1])%nat as Hproducts by (simpl; lia).
  assert (0 < List.length [price_1])%nat as Hprices by (simpl; lia).
  do 3 (split; [assumption|]). split; [reflexivity|].
  exact (failed_price_delete_leaves_the_store unparsed w [prod_1] [price_1]
           timeout stale Hfetch Hproducts Hprices eq_refl).
Defined.

(** X4 on a store whose second [deleteMany] times out: the old price is
    gone, the old product is still there. *)
Lemma failed_product_delete_witness :
  let w := faulty None (Some timeout) None [prod_1] [price_1] in
  fetches w [prod_1] [price_1] ∧
  (0 < List.length [prod_1])%nat ∧
  (0 < List.length [price_1])%nat ∧
  stripePrice_deleteMany_fault w = None ∧
  stripeProduct_deleteMany_fault w = Some timeout ∧
  sync unparsed w stale =
    (1,
     mkProcess (mkDb [old_product] [])
       [started; called stripe_list_all None;
        called stripePrice_deleteMany None;
        called stripeProduct_deleteMany (Some timeout); reported timeout]).
Proof.
  intros w.
  assert (fetches w [prod_1] [price_1]) as Hfetch by (split; reflexivity).
  assert (0 < List.length [prod_1])%nat as Hproducts by (simpl; lia).
  assert (0 < List.length [price_1])%nat as Hprices by (simpl; lia).
  do 3 (split; [assumption|]). do 2 (split; [reflexivity|]).
  exact (failed_product_delete_is_not_rolled_back unparsed w [prod_1]
           [price_1] timeout stale Hfetch Hproducts Hprices eq_refl eq_refl).
Defined.


(** X7 on the [create] call of the fuller product. *)
Lemma creates_come_after_the_wipe_witness :
  let w := world sk [prod_2] [price_1] in
  let e :=
    called
      (stripeProduct_create
         (Product.mk (Str "prod_2") (Str "For teams")
            (Arr [Str "SSO"; Str "Audit logs"])
            (Str "https://files.example/team.png") (Obj []) (Str "Team")
            (Str "seat") (mkDate (Int 1700000000000)))) None in
  e ∈ trace (sync unparsed w stale).2 ∧
  is_create e = true ∧
  preamble `prefix_of` trace (sync unparsed w stale).2.
Proof.
  intros w e.
  assert (e ∈ trace (sync unparsed w stale).2) as Hin.
  { vm_compute. do 4 apply list_elem_of_further. apply list_elem_of_here. }
  split; [exact Hin|]. split; [reflexivity|].
  exact (creates_come_after_the_wipe unparsed w stale e Hin eq_refl).
Defined.

(** X10 on a run with a product that has no images and a price fetched
    twice: 1 + 2 rows and 2 logged errors for 2 + 3 records. *)
Lemma every_record_witness :
  let w := world sk [prod_bare; prod_2] [price_1; price_1; price_tiered] in
  fetches w [prod_bare; prod_2] [price_1; price_1; price_tiered] ∧
  (0 < List.length [prod_bare; prod_2])%nat ∧
  (0 < List.length [price_1; price_1; price_tiered])%nat ∧
  deletes w ∧
  (List.length (stripeProduct (db (sync unparsed w stale).2))
   + List.length (stripePrice (db (sync unparsed w stale).2))
   + logged_errors (trace (sync unparsed w stale).2))%nat
  = (2 + 3)%nat.
Proof.
  intros w.
  assert (fetches w [prod_bare; prod_2] [price_1; price_1; price_tiered])
    as Hfetch by (split; reflexivity).
  assert (0 < List.length [prod_bare; prod_2])%nat as Hproducts
    by (simpl; lia).
  assert (0 < List.length [price_1; price_1; price_tiered])%nat as Hprices
    by (simpl; lia).
  assert (deletes w) as Hdeletes by (split; reflexivity).
  do 4 (split; [assumption|]).
  exact (every_record_is_inserted_or_logged unparsed w
           [prod_bare; prod_2] [price_1; price_1; price_tiered] stale
           Hfetch Hproducts Hprices Hdeletes).
Defined.

(** X11 on two products and two prices and a store that accepts all. *)
Lemma clean_sync_witness :
  let w := faulty None None None [prod_1; prod_2] [price_1; price_tiered] in
  ∃ rows_p rows_r,
    fetches w [prod_1; prod_2] [price_1; price_tiered] ∧
    mapM (product_data unparsed) [prod_1; prod_2] = Ok rows_p ∧
    mapM (price_data unparsed) [price_1; price_tiered] = Ok rows_r ∧
    db (sync unparsed w stale).2 = mkDb rows_p rows_r ∧
    (sync unparsed w stale).1 = 0.
Proof.
  intros w.
  assert (fetches w [prod_1; prod_2] [price_1; price_tiered]) as Hfetch
    by (split; reflexivity).
  assert (0 < List.length [prod_1; prod_2])%nat as Hproducts by (simpl; lia).
  assert (0 < List.length [price_1; price_tiered])%nat as Hprices
    by (simpl; lia).
  assert (deletes w) as Hdeletes by (split; reflexivity).
  destruct (mapM (product_data unparsed) [prod_1; prod_2])
    as [rows_p|e] eqn:Hp; [|discriminate Hp].
  destruct (mapM (price_data unparsed) [price_1; price_tiered])
    as [rows_r|e] eqn:Hr; [|discriminate Hr].
  exists rows_p, rows_r.
  split; [assumption|]. do 2 (split; [reflexivity|]).
  rewrite (clean_sync_mirrors_the_fetch unparsed w
             [prod_1; prod_2] [price_1; price_tiered] rows_p rows_r stale
             Hfetch Hproducts Hprices Hdeletes eq_refl Hp Hr
             (λ _ _ _, eq_refl) (λ _ _ _, eq_refl)).
  split; reflexivity.
Defined.

(** X12 on a store that refuses every row. *)
Lemma refused_inserts_witness :
  let w := refusing [prod_1; prod_2] [price_1] in
  fetches w [prod_1; prod_2] [price_1] ∧
  (0 < List.length [prod_1; prod_2])%nat ∧
  (0 < List.length [price_1])%nat ∧
  deletes w ∧
  count_all_fault w = None ∧
  ∃ t,
    sync unparsed w stale =
      (0,
       mkProcess (mkDb [] [])
         (t ++ [called prisma_count_all None;
                console_log [text "Products synced:"; count 0];
                console_log [text "Prices synced:"; count 0];
                completed])).
Proof.
  intros w.
  assert (fetches w [prod_1; prod_2] [price_1]) as Hfetch
    by (split; reflexivity).
  assert (0 < List.length [prod_1; prod_2])%nat as Hproducts by (simpl; lia).
  assert (0 < List.length [price_1])%nat as Hprices by (simpl; lia).
  assert (deletes w) as Hdeletes by (split; reflexivity).
  do 4 (split; [assumption|]). split; [reflexivity|].
  refine (refused_inserts_leave_an_empty_store unparsed w
            [prod_1; prod_2] [price_1] stale
            Hfetch Hproducts Hprices Hdeletes eq_refl _ _);
    intros history d row; discriminate.
Defined.

(** X13 on a price with the provider's custom amount object. *)
Lemma custom_unit_amount_witness :
  ∃ row,
    price_data unparsed price_custom = Ok row ∧
    Price.customUnitAmount row = Str "[object Object]".
Proof.
  exact (custom_unit_amount_object_is_flattened unparsed price_custom
           (Number (Int 1700000000))
           [("maximum", Number (Int 10000)); ("minimum", Number (Int 100));
            ("preset", Number (Int 500))]
           Undefined Null
           eq_refl eq_refl eq_refl eq_refl eq_refl eq_refl eq_refl eq_refl).
Defined.

(** X14 on the price and the product of the end-to-end scenario: the
    price has [created], the product has not. *)
Lemma created_witness :
  (∃ row,
     price_data unparsed price_1 = Ok row ∧
     Price.created row = mkDate (Int 1700000000000)) ∧
  (∃ row,
     product_data unparsed prod_1 = Ok row ∧
     Product.created row = mkDate NaN).
Proof.
  split.
  - destruct (price_data unparsed price_1) as [row|e] eqn:Hrow;
      [|discriminate Hrow].
    exists row. split; [reflexivity|].
    exact (proj1 (proj1 (created_is_seconds_times_1000_or_invalid unparsed)
                    price_1 row Hrow) 1700000000 eq_refl).
  - destruct (product_data unparsed prod_1) as [row|e] eqn:Hrow;
      [|discriminate Hrow].
    exists row. split; [reflexivity|].
    exact (proj2 (proj2 (created_is_seconds_times_1000_or_invalid unparsed)
                    prod_1 row Hrow) eq_refl).
Defined.

(** X16 on a product with a [null] feature and on one whose features are a
    string. *)
Lemma malformed_features_witness :
  (get prod_holed "features" = Ok (Arr [Obj [("name", Str "SSO")]; Null]) ∧
   ∃ e, product_data unparsed prod_holed = Throw e) ∧
  (get prod_flat "features" = Ok (Str "SSO, Audit logs") ∧
   ∃ e, product_data unparsed prod_flat = Throw e).
Proof.
  split; (split; [reflexivity|]).
  - destruct (malformed_features_skip_the_product unparsed (world sk [] [])
                prod_holed (Arr [Obj [("name", Str "SSO")]; Null]) eq_refl)
      as (e & He & _).
    + right. exists [Obj [("name", Str "SSO")]; Null], Null.
      split; [reflexivity|]. split; [|reflexivity].
      apply list_elem_of_further, list_elem_of_here.
    + exists e. exact He.
  - destruct (malformed_features_skip_the_product unparsed (world sk [] [])
                prod_flat (Str "SSO, Audit logs") eq_refl)
      as (e & He & _).
    + left. split; [reflexivity|]. intros xs; discriminate.
    + exists e. exact He.
Defined.


(** C8 on a run over a price without [tiers_mode] and a tiered price. *)
Lemma inserted_tiersMode_witness :
  let w := world sk [prod_1; prod_2] [price_1; price_tiered] in
  fetches w [prod_1; prod_2] [price_1; price_tiered] ∧
  (0 < List.length [prod_1; prod_2])%nat ∧
  (0 < List.length [price_1; price_tiered])%nat ∧
  deletes w ∧
  (∃ row o,
     price_data unparsed price_1 = Ok row ∧
     called (stripePrice_create row) o ∈ trace (sync unparsed w stale).2 ∧
     (o = None → row ∈ stripePrice (db (sync unparsed w stale).2)) ∧
     Price.tiersMode row = Str "") ∧
  (∃ row o,
     price_data unparsed price_tiered = Ok row ∧
     called (stripePrice_create row) o ∈ trace (sync unparsed w stale).2 ∧
     (o = None → row ∈ stripePrice (db (sync unparsed w stale).2)) ∧
     Price.tiersMode row = Str "graduated").
Proof.
  intros w.
  assert (fetches w [prod_1; prod_2] [price_1; price_tiered]) as Hfetch
    by (split; reflexivity).
  assert (0 < List.length [prod_1; prod_2])%nat as Hproducts by (simpl; lia).
  assert (0 < List.length [price_1; price_tiered])%nat as Hprices
    by (simpl; lia).
  assert (deletes w) as Hdeletes by (split; reflexivity).
  do 4 (split; [assumption|]).
  pose proof (proj2 (inserted_tiersMode_is_never_null unparsed w
                       [prod_1; prod_2] [price_1; price_tiered] stale
                       Hfetch Hproducts Hprices Hdeletes)) as Hrows.
  split.
  - exact (Hrows price_1 (Number (Int 1700000000)) Undefined Undefined
             (Number (Int 1000)) (list_elem_of_here _ _)
             eq_refl eq_refl eq_refl eq_refl eq_refl eq_refl eq_refl
             eq_refl).
  - exact (Hrows price_tiered (Number (Int 1700000000)) Undefined
             (Str "graduated") Null
             (list_elem_of_further _ _ _ (list_elem_of_here _ _))
             eq_refl eq_refl eq_refl eq_refl eq_refl eq_refl eq_refl
             eq_refl).
Defined.

(** X15 on a run with a product that has no images and a price fetched
    twice. *)
Lemma stored_rows_witness :
  let w := world sk [prod_bare; prod_2] [price_1; price_1; price_tiered] in
  fetches w [prod_bare; prod_2] [price_1; price_1; price_tiered] ∧
  (0 < List.length [prod_bare; prod_2])%nat ∧
  (0 < List.length [price_1; price_1; price_tiered])%nat ∧
  deletes w ∧
  stripeProduct (db (sync unparsed w stale).2)
    `sublist_of`
    omap (λ data, returned (product_data unparsed data)) [prod_bare; prod_2] ∧
  stripePrice (db (sync unparsed w stale).2)
    `sublist_of`
    omap (λ data, returned (price_data unparsed data))
      [price_1; price_1; price_tiered].
Proof.
  intros w.
  assert (fetches w [prod_bare; prod_2] [price_1; price_1; price_tiered])
    as Hfetch by (split; reflexivity).
  assert (0 < List.length [prod_bare; prod_2])%nat as Hproducts
    by (simpl; lia).
  assert (0 < List.length [price_1; price_1; price_tiered])%nat as Hprices
    by (simpl; lia).
  assert (deletes w) as Hdeletes by (split; reflexivity).
  do 4 (split; [assumption|]).
  destruct (stored_rows_come_from_the_fetch unparsed w
              [prod_bare; prod_2] [price_1; price_1; price_tiered] stale
              Hfetch Hproducts Hprices Hdeletes)
    as (Hproduct_rows & Hprice_rows & _).
  split; assumption.
Defined.

(** Numbers beyond 2^53 as JavaScript prints them. *)
Example large_numbers_as_printed :
  number_toString (Int 1000) = "1000" ∧
  number_toString (Int (-250)) = "-250" ∧
  number_toString (Int (2 ^ 60)) = "1152921504606847000" ∧
  number_toString (Int (10 ^ 21)) = "1e+21" ∧
  number_toString (Int (2 ^ 70)) = "1.1805916207174113e+21" ∧
  number_toString (Int (- 10 ^ 23)) = "-1e+23".
Proof. vm_compute. repeat split. Qed.
